(** * The React 16.3 DOM event plugins: SimpleEventPlugin and SelectEventPlugin

    A shallow embedding of
      - packages/react-dom/src/events/SimpleEventPlugin.js  (the classifier plugin),
      - packages/react-dom/src/events/SelectEventPlugin.js  (the selection plugin),
      - the propagation choice of [makeSimulator] in
        packages/react-dom/src/test-utils/ReactTestUtils.js,
    and the properties of them that the specification states.

    JavaScript objects used as tables ([eventTypes],
    [topLevelEventsToDispatchConfig]) are finite maps keyed by strings;
    module-level [let] variables are an explicit state record threaded through
    [extractEvents]; what the code reads from the browser at the time of a call
    (the focused element, the selection, the listening bookkeeping) is an
    explicit [Platform] argument. *)

From Stdlib Require Import ZArith List Bool Ascii String.
From stdpp Require Import base decidable option strings gmap.
Import ListNotations.
Local Open Scope string_scope.
Local Open Scope Z_scope.

(** ** JavaScript values seen by the plugins *)

(** A DOM object (element, document, window) is known by its identity only;
    every property the code reads from it is read through the [Platform]. *)
Definition DomObject := nat.

(** A UI-tree instance (a Fiber), opaque to the plugins. *)
Definition Inst := nat.

Inductive JSVal : Type :=
| VUndefined
| VNull
| VNum (z : Z)
| VStr (s : string)
| VRef (o : DomObject).

#[global] Instance JSVal_eq_dec : EqDecision JSVal.
Proof. solve_decision. Defined.

(** [Object.is] on the values above (no NaN and no negative zero among them). *)
Definition objectIs (a b : JSVal) : bool := bool_decide (a = b).

(** Strict equality [===] on the values above. *)
Definition strictEq (a b : JSVal) : bool := bool_decide (a = b).

(** ** Dispatch configurations *)

Record PhasedRegistrationNames : Type := {
  bubbled : string;
  captured : string
}.

(** The object literals of the source have the keys [phasedRegistrationNames],
    [dependencies] and (classifier only) [isInteractive]; a key that a literal
    does not have reads as [undefined], here [None]. *)
Record DispatchConfig : Type := {
  phasedRegistrationNames : option PhasedRegistrationNames;
  directRegistrationName : option string;
  dependencies : list string;
  isInteractive : option bool
}.

#[global] Instance PhasedRegistrationNames_eq_dec : EqDecision PhasedRegistrationNames.
Proof. solve_decision. Defined.

#[global] Instance DispatchConfig_eq_dec : EqDecision DispatchConfig.
Proof. solve_decision. Defined.

(** ** Synthetic events *)

(** The constructors among which the classifier chooses. *)
Inductive EventShape : Type :=
| SyntheticEvent
| SyntheticAnimationEvent
| SyntheticClipboardEvent
| SyntheticFocusEvent
| SyntheticKeyboardEvent
| SyntheticMouseEvent
| SyntheticDragEvent
| SyntheticTouchEvent
| SyntheticTransitionEvent
| SyntheticUIEvent
| SyntheticWheelEvent.

Inductive Propagation : Type :=
| TwoPhaseDispatches
| DirectDispatches.

(** The native event payload: the fields the two plugins read. *)
Record NativeEvent : Type := {
  ne_type : string;
  ne_button : JSVal;
  ne_charCode : JSVal;
  ne_keyCode : JSVal
}.

Record ReactSyntheticEvent : Type := {
  ev_shape : EventShape;
  ev_dispatchConfig : DispatchConfig;
  ev_targetInst : option Inst;
  ev_nativeEvent : NativeEvent;
  ev_type : string;
  ev_target : JSVal;
  ev_accumulated : option Propagation
}.

(** Modelled from the spec: [SyntheticEvent.getPooled] (react-events/SyntheticEvent
    is not among the sources).  Construction populates the base fields from its
    four arguments: [type] from the native event, [target] from the native
    target; no propagation chain is attached yet. *)
Definition getPooled (shape : EventShape) (dispatchConfig : DispatchConfig)
    (targetInst : option Inst) (nativeEvent : NativeEvent)
    (nativeEventTarget : DomObject) : ReactSyntheticEvent :=
  {| ev_shape := shape;
     ev_dispatchConfig := dispatchConfig;
     ev_targetInst := targetInst;
     ev_nativeEvent := nativeEvent;
     ev_type := ne_type nativeEvent;
     ev_target := VRef nativeEventTarget;
     ev_accumulated := None |}.

(** Modelled from the spec: [accumulateTwoPhaseDispatches] and
    [accumulateDirectDispatches] (react-events/EventPropagators is not among
    the sources).  The walk over the UI tree is outside this development; what
    is recorded is which accumulation was requested for the event. *)
Definition accumulateTwoPhaseDispatches (e : ReactSyntheticEvent) : ReactSyntheticEvent :=
  {| ev_shape := ev_shape e;
     ev_dispatchConfig := ev_dispatchConfig e;
     ev_targetInst := ev_targetInst e;
     ev_nativeEvent := ev_nativeEvent e;
     ev_type := ev_type e;
     ev_target := ev_target e;
     ev_accumulated := Some TwoPhaseDispatches |}.

Definition accumulateDirectDispatches (e : ReactSyntheticEvent) : ReactSyntheticEvent :=
  {| ev_shape := ev_shape e;
     ev_dispatchConfig := ev_dispatchConfig e;
     ev_targetInst := ev_targetInst e;
     ev_nativeEvent := ev_nativeEvent e;
     ev_type := ev_type e;
     ev_target := ev_target e;
     ev_accumulated := Some DirectDispatches |}.

(** ** String helpers *)

(** [c.toUpperCase()] for one character.  Event names are ASCII; a byte outside
    [a..z] is left as it is. *)
Definition toUpperCase (c : ascii) : ascii :=
  let n := nat_of_ascii c in
  if (97 <=? n)%nat && (n <=? 122)%nat then ascii_of_nat (n - 32) else c.

(** [cases.includes(t)]: one group of [case] labels of a [switch]. *)
Definition isCase (t : string) (cases : list string) : bool :=
  existsb (String.eqb t) cases.

(** [xs.indexOf(t) === -1] *)
Definition indexOfIsMinusOne (xs : list string) (t : string) : bool :=
  negb (existsb (String.eqb t) xs).

Module SimpleEventPlugin.

Definition interactiveEventTypeNames : list string :=
  [ "blur"; "cancel"; "click"; "close"; "contextMenu"; "copy"; "cut";
    "doubleClick"; "dragEnd"; "dragStart"; "drop"; "focus"; "input";
    "invalid"; "keyDown"; "keyPress"; "keyUp"; "mouseDown"; "mouseUp";
    "paste"; "pause"; "play"; "rateChange"; "reset"; "seeked"; "submit";
    "touchCancel"; "touchEnd"; "touchStart"; "volumeChange" ].

Definition nonInteractiveEventTypeNames : list string :=
  [ "abort"; "animationEnd"; "animationIteration"; "animationStart";
    "canPlay"; "canPlayThrough"; "drag"; "dragEnter"; "dragExit";
    "dragLeave"; "dragOver"; "durationChange"; "emptied"; "encrypted";
    "ended"; "error"; "load"; "loadedData"; "loadedMetadata"; "loadStart";
    "mouseMove"; "mouseOut"; "mouseOver"; "playing"; "progress"; "scroll";
    "seeking"; "stalled"; "suspend"; "timeUpdate"; "toggle"; "touchMove";
    "transitionEnd"; "waiting"; "wheel" ].

(** The two module-level tables that [addEventTypeNameToConfig] fills. *)
Record Tables : Type := {
  eventTypes : gmap string DispatchConfig;
  topLevelEventsToDispatchConfig : gmap string DispatchConfig
}.

Definition emptyTables : Tables :=
  {| eventTypes := ∅; topLevelEventsToDispatchConfig := ∅ |}.

(** The configuration object that [addEventTypeNameToConfig] builds from the
    first character and the rest of the name. *)
Definition configOf (c : ascii) (rest : string) (isInteractive : bool) : DispatchConfig :=
  let capitalizedEvent := String (toUpperCase c) rest in
  let onEvent := "on" ++ capitalizedEvent in
  let topEvent := "top" ++ capitalizedEvent in
  {| phasedRegistrationNames :=
       Some {| bubbled := onEvent; captured := onEvent ++ "Capture" |};
     directRegistrationName := None;
     dependencies := [topEvent];
     isInteractive := Some isInteractive |}.

(** [addEventTypeNameToConfig(event, isInteractive)].  On the empty string
    [event[0]] is [undefined] and [.toUpperCase()] throws: [None]. *)
Definition addEventTypeNameToConfig (event : string) (isInteractive : bool)
    (tb : Tables) : option Tables :=
  match event with
  | EmptyString => None
  | String c rest =>
      let type := configOf c rest isInteractive in
      let topEvent := "top" ++ String (toUpperCase c) rest in
      Some {| eventTypes := <[event := type]> (eventTypes tb);
              topLevelEventsToDispatchConfig :=
                <[topEvent := type]> (topLevelEventsToDispatchConfig tb) |}
  end.

(** [names.forEach(n => addEventTypeNameToConfig(n, isInteractive))] *)
Fixpoint forEachAdd (names : list string) (isInteractive : bool)
    (tb : Tables) : option Tables :=
  match names with
  | [] => Some tb
  | n :: rest =>
      match addEventTypeNameToConfig n isInteractive tb with
      | Some tb' => forEachAdd rest isInteractive tb'
      | None => None
      end
  end.

(** Module initialisation: the interactive names, then the others. *)
Definition initTables : option Tables :=
  match forEachAdd interactiveEventTypeNames true emptyTables with
  | Some tb => forEachAdd nonInteractiveEventTypeNames false tb
  | None => None
  end.

Definition tables : Tables := default emptyTables initTables.

Definition knownHTMLTopLevelTypes : list string :=
  [ "topAbort"; "topCancel"; "topCanPlay"; "topCanPlayThrough"; "topClose";
    "topDurationChange"; "topEmptied"; "topEncrypted"; "topEnded";
    "topError"; "topInput"; "topInvalid"; "topLoad"; "topLoadedData";
    "topLoadedMetadata"; "topLoadStart"; "topPause"; "topPlay";
    "topPlaying"; "topProgress"; "topRateChange"; "topReset"; "topSeeked";
    "topSeeking"; "topStalled"; "topSubmit"; "topSuspend"; "topTimeUpdate";
    "topToggle"; "topVolumeChange"; "topWaiting" ].

(** A report made through [warning(false, ...)]: the unhandled kind.  The
    fbjs [warning] prints and returns; it does not throw. *)
Definition Warning := string.

Section Extract.

(** [__DEV__]: true in a development build, false in a production build. *)
Variable __DEV__ : bool.

(** [getEventCharCode] (./getEventCharCode is not among the sources): the
    decoded character code of a native keyboard event. *)
Variable getEventCharCode : NativeEvent -> Z.

(** The tail of [extractEvents] after the [switch]. *)
Definition construct (EventConstructor : EventShape) (dispatchConfig : DispatchConfig)
    (targetInst : option Inst) (nativeEvent : NativeEvent)
    (nativeEventTarget : DomObject) : ReactSyntheticEvent :=
  let event :=
    getPooled EventConstructor dispatchConfig targetInst nativeEvent nativeEventTarget in
  accumulateTwoPhaseDispatches event.

(** The [default:] branch of the [switch]: the report, if any. *)
Definition defaultCaseWarnings (topLevelType : string) : list Warning :=
  if __DEV__ then
    if indexOfIsMinusOne knownHTMLTopLevelTypes topLevelType
    then [topLevelType] else []
  else [].

(** [SimpleEventPlugin.extractEvents].  The result is the returned event
    ([None] for [null]) and the warnings printed during the call.
    [topLevelType] is one of the top-level type names (the Flow type
    [TopLevelTypes]), so the table lookup never finds a property inherited
    from [Object.prototype]. *)
Definition extractEvents (topLevelType : string) (targetInst : option Inst)
    (nativeEvent : NativeEvent) (nativeEventTarget : DomObject)
    : option ReactSyntheticEvent * list Warning :=
  match topLevelEventsToDispatchConfig tables !! topLevelType with
  | None => (None, [])
  | Some dispatchConfig =>
      let build shape :=
        (Some (construct shape dispatchConfig targetInst nativeEvent nativeEventTarget),
         @nil Warning) in
      if String.eqb topLevelType "topKeyPress" then
        if getEventCharCode nativeEvent =? 0 then (None, [])
        else build SyntheticKeyboardEvent
      else if isCase topLevelType ["topKeyDown"; "topKeyUp"] then
        build SyntheticKeyboardEvent
      else if isCase topLevelType ["topBlur"; "topFocus"] then
        build SyntheticFocusEvent
      else if String.eqb topLevelType "topClick" then
        if strictEq (ne_button nativeEvent) (VNum 2) then (None, [])
        else build SyntheticMouseEvent
      else if isCase topLevelType
                ["topDoubleClick"; "topMouseDown"; "topMouseMove"; "topMouseUp";
                 "topMouseOut"; "topMouseOver"; "topContextMenu"] then
        build SyntheticMouseEvent
      else if isCase topLevelType
                ["topDrag"; "topDragEnd"; "topDragEnter"; "topDragExit";
                 "topDragLeave"; "topDragOver"; "topDragStart"; "topDrop"] then
        build SyntheticDragEvent
      else if isCase topLevelType
                ["topTouchCancel"; "topTouchEnd"; "topTouchMove"; "topTouchStart"] then
        build SyntheticTouchEvent
      else if isCase topLevelType
                ["topAnimationEnd"; "topAnimationIteration"; "topAnimationStart"] then
        build SyntheticAnimationEvent
      else if String.eqb topLevelType "topTransitionEnd" then
        build SyntheticTransitionEvent
      else if String.eqb topLevelType "topScroll" then
        build SyntheticUIEvent
      else if String.eqb topLevelType "topWheel" then
        build SyntheticWheelEvent
      else if isCase topLevelType ["topCopy"; "topCut"; "topPaste"] then
        build SyntheticClipboardEvent
      else
        (Some (construct SyntheticEvent dispatchConfig targetInst nativeEvent
                 nativeEventTarget),
         defaultCaseWarnings topLevelType)
  end.

End Extract.

(** [SimpleEventPlugin.isInteractiveTopLevelEventType]:
    [config !== undefined && config.isInteractive === true]. *)
Definition isInteractiveTopLevelEventType (topLevelType : string) : bool :=
  match topLevelEventsToDispatchConfig tables !! topLevelType with
  | None => false
  | Some config => bool_decide (isInteractive config = Some true)
  end.

(** The [case] labels of the [switch] in [extractEvents]: the kinds for which
    the classifier selects a shape of its own. *)
Definition switchCases : list string :=
  [ "topKeyPress"; "topKeyDown"; "topKeyUp"; "topBlur"; "topFocus"; "topClick";
    "topDoubleClick"; "topMouseDown"; "topMouseMove"; "topMouseUp";
    "topMouseOut"; "topMouseOver"; "topContextMenu";
    "topDrag"; "topDragEnd"; "topDragEnter"; "topDragExit"; "topDragLeave";
    "topDragOver"; "topDragStart"; "topDrop";
    "topTouchCancel"; "topTouchEnd"; "topTouchMove"; "topTouchStart";
    "topAnimationEnd"; "topAnimationIteration"; "topAnimationStart";
    "topTransitionEnd"; "topScroll"; "topWheel";
    "topCopy"; "topCut"; "topPaste" ].

End SimpleEventPlugin.

Module SelectEventPlugin.

Definition eventTypes_select : DispatchConfig :=
  {| phasedRegistrationNames :=
       Some {| bubbled := "onSelect"; captured := "onSelectCapture" |};
     directRegistrationName := None;
     dependencies :=
       [ "topBlur"; "topContextMenu"; "topFocus"; "topKeyDown"; "topKeyUp";
         "topMouseDown"; "topMouseUp"; "topSelectionChange" ];
     isInteractive := None |}.

Definition eventTypes : gmap string DispatchConfig :=
  {[ "select" := eventTypes_select ]}.

(** What [window.getSelection()] returns: the four properties that are read. *)
Record DomSelection : Type := {
  anchorNode : JSVal;
  anchorOffset : JSVal;
  focusNode : JSVal;
  focusOffset : JSVal
}.

(** The browser and the framework bookkeeping as the plugin can observe them
    during one call of [extractEvents].  Object properties are functions of the
    object's identity.  [isTextInputElement] (shared/isTextInputElement),
    [hasSelectionCapabilities] (../client/ReactInputSelection),
    [isListeningToAllDependencies] (./ReactBrowserEventEmitter) and
    [getNodeFromInstance] (../client/ReactDOMComponentTree) are not among the
    sources and [getActiveElement] is fbjs's; they are taken as they answer at
    the time of the call. *)
Record Platform : Type := {
  window : DomObject;
  prop_window : DomObject -> JSVal;
  prop_document : DomObject -> option DomObject;
  prop_nodeType : DomObject -> JSVal;
  prop_ownerDocument : DomObject -> option DomObject;
  prop_contentEditable : DomObject -> JSVal;
  has_selectionStart : DomObject -> bool;
  prop_selectionStart : DomObject -> JSVal;
  prop_selectionEnd : DomObject -> JSVal;
  window_getSelection : option DomSelection;
  getActiveElement : option DomObject;
  isTextInputElement : DomObject -> bool;
  hasSelectionCapabilities : DomObject -> bool;
  isListeningToAllDependencies : string -> DomObject -> bool;
  getNodeFromInstance : Inst -> DomObject;
  (** whether a handler registered as [onSelect] or [onSelectCapture] is
      mounted in the document when the event arrives *)
  selectHandlerMounted : bool
}.

(** The values [lastSelection] and [currentSelection] can hold: [null], the
    [undefined] that [getSelection] returns when it takes neither branch, or a
    snapshot object given by its own keys, in order, with their values. *)
Inductive SelectionValue : Type :=
| SelNull
| SelUndefined
| SelObject (props : list (string * JSVal)).

(** Truthiness of such a value. *)
Definition truthy (v : SelectionValue) : bool :=
  match v with
  | SelObject _ => true
  | _ => false
  end.

(** [objB[key]] for an own key, [None] when [key] is not an own key. *)
Fixpoint getOwn (key : string) (props : list (string * JSVal)) : option JSVal :=
  match props with
  | [] => None
  | (k, v) :: rest => if String.eqb key k then Some v else getOwn key rest
  end.

(** fbjs [shallowEqual]: equal when identical; else both must be objects with
    the same number of keys, each key of the first an own key of the second
    holding an [Object.is]-equal value. *)
Definition shallowEqual (objA objB : SelectionValue) : bool :=
  match objA, objB with
  | SelNull, SelNull => true
  | SelUndefined, SelUndefined => true
  | SelObject a, SelObject b =>
      (length a =? length b)%nat
      && forallb (fun kv : string * JSVal =>
                    match getOwn (fst kv) b with
                    | Some vb => objectIs (snd kv) vb
                    | None => false
                    end) a
  | _, _ => false
  end.

(** [getSelection(node)] *)
Definition getSelection (p : Platform) (node : DomObject) : SelectionValue :=
  if has_selectionStart p node && hasSelectionCapabilities p node then
    SelObject [ ("start", prop_selectionStart p node);
                ("end", prop_selectionEnd p node) ]
  else
    match window_getSelection p with
    | Some selection =>
        SelObject [ ("anchorNode", anchorNode selection);
                    ("anchorOffset", anchorOffset selection);
                    ("focusNode", focusNode selection);
                    ("focusOffset", focusOffset selection) ]
    | None => SelUndefined
    end.

(** The module-level variables of the plugin. *)
Record State : Type := {
  activeElement : option DomObject;
  activeElementInst : option Inst;
  lastSelection : SelectionValue;
  mouseDown : bool
}.

Definition initialState : State :=
  {| activeElement := None;
     activeElementInst := None;
     lastSelection := SelNull;
     mouseDown := false |}.

Definition set_lastSelection (v : SelectionValue) (st : State) : State :=
  {| activeElement := activeElement st;
     activeElementInst := activeElementInst st;
     lastSelection := v;
     mouseDown := mouseDown st |}.

Definition set_mouseDown (b : bool) (st : State) : State :=
  {| activeElement := activeElement st;
     activeElementInst := activeElementInst st;
     lastSelection := lastSelection st;
     mouseDown := b |}.

(** The first [if] of [constructSelectEvent]:
    [mouseDown || activeElement == null || activeElement !== getActiveElement()]. *)
Definition guardsBlock (p : Platform) (st : State) : bool :=
  mouseDown st
  || match activeElement st with
     | None => true
     | Some a => negb (bool_decide (getActiveElement p = Some a))
     end.

(** [constructSelectEvent(nativeEvent, nativeEventTarget)]: the returned event
    ([None] for [null]) and the module variables after the call.  Past the
    first [if], [activeElement] is not null. *)
Definition constructSelectEvent (p : Platform) (st : State)
    (nativeEvent : NativeEvent) (nativeEventTarget : DomObject)
    : option ReactSyntheticEvent * State :=
  if guardsBlock p st then (None, st)
  else
    match activeElement st with
    | None => (None, st)
    | Some a =>
        let currentSelection := getSelection p a in
        if negb (truthy (lastSelection st))
           || negb (shallowEqual (lastSelection st) currentSelection)
        then
          let st' := set_lastSelection currentSelection st in
          let syntheticEvent :=
            getPooled SyntheticEvent eventTypes_select (activeElementInst st)
              nativeEvent nativeEventTarget in
          let syntheticEvent :=
            {| ev_shape := ev_shape syntheticEvent;
               ev_dispatchConfig := ev_dispatchConfig syntheticEvent;
               ev_targetInst := ev_targetInst syntheticEvent;
               ev_nativeEvent := ev_nativeEvent syntheticEvent;
               ev_type := "select";
               ev_target := VRef a;
               ev_accumulated := ev_accumulated syntheticEvent |} in
          (Some (accumulateTwoPhaseDispatches syntheticEvent), st')
        else (None, st)
    end.

Section Extract.

(** [DOCUMENT_NODE] of ../shared/HTMLNodeType, which is not among the sources. *)
Variable DOCUMENT_NODE : Z.

(** The module constant [skipSelectionChangeEvent], fixed when the module is
    loaded: true on engines whose [document.documentMode] is at most 11. *)
Variable skipSelectionChangeEvent : bool.

(** The [doc] computed at the head of [extractEvents]. *)
Definition docOf (p : Platform) (nativeEventTarget : DomObject) : option DomObject :=
  if strictEq (prop_window p nativeEventTarget) (VRef nativeEventTarget) then
    prop_document p nativeEventTarget
  else if strictEq (prop_nodeType p nativeEventTarget) (VNum DOCUMENT_NODE) then
    Some nativeEventTarget
  else prop_ownerDocument p nativeEventTarget.

(** [!doc || !isListeningToAllDependencies('onSelect', doc)] *)
Definition notListening (p : Platform) (nativeEventTarget : DomObject) : bool :=
  match docOf p nativeEventTarget with
  | None => true
  | Some doc => negb (isListeningToAllDependencies p "onSelect" doc)
  end.

(** [targetInst ? getNodeFromInstance(targetInst) : window] *)
Definition targetNodeOf (p : Platform) (targetInst : option Inst) : DomObject :=
  match targetInst with
  | Some inst => getNodeFromInstance p inst
  | None => window p
  end.

(** The [switch] of [extractEvents] and the [return null] after it. *)
Definition react (p : Platform) (st : State) (topLevelType : string)
    (targetInst : option Inst) (nativeEvent : NativeEvent)
    (nativeEventTarget : DomObject) : option ReactSyntheticEvent * State :=
  let targetNode := targetNodeOf p targetInst in
  if String.eqb topLevelType "topFocus" then
    if isTextInputElement p targetNode
       || strictEq (prop_contentEditable p targetNode) (VStr "true")
    then
      (None, {| activeElement := Some targetNode;
                activeElementInst := targetInst;
                lastSelection := SelNull;
                mouseDown := mouseDown st |})
    else (None, st)
  else if String.eqb topLevelType "topBlur" then
    (None, {| activeElement := None;
              activeElementInst := None;
              lastSelection := SelNull;
              mouseDown := mouseDown st |})
  else if String.eqb topLevelType "topMouseDown" then
    (None, set_mouseDown true st)
  else if isCase topLevelType ["topContextMenu"; "topMouseUp"] then
    constructSelectEvent p (set_mouseDown false st) nativeEvent nativeEventTarget
  else if String.eqb topLevelType "topSelectionChange" then
    if skipSelectionChangeEvent then (None, st)
    else constructSelectEvent p st nativeEvent nativeEventTarget
  else if isCase topLevelType ["topKeyDown"; "topKeyUp"] then
    constructSelectEvent p st nativeEvent nativeEventTarget
  else (None, st).

(** [SelectEventPlugin.extractEvents] *)
Definition extractEvents (p : Platform) (st : State) (topLevelType : string)
    (targetInst : option Inst) (nativeEvent : NativeEvent)
    (nativeEventTarget : DomObject) : option ReactSyntheticEvent * State :=
  if notListening p nativeEventTarget then (None, st)
  else react p st topLevelType targetInst nativeEvent nativeEventTarget.

(** One native event as the dispatch loop hands it to the plugin, with the
    platform as it is at that moment. *)
Record NativeCall : Type := {
  nc_platform : Platform;
  nc_topLevelType : string;
  nc_targetInst : option Inst;
  nc_nativeEvent : NativeEvent;
  nc_nativeEventTarget : DomObject
}.

Definition step (st : State) (c : NativeCall) : option ReactSyntheticEvent * State :=
  extractEvents (nc_platform c) st (nc_topLevelType c) (nc_targetInst c)
    (nc_nativeEvent c) (nc_nativeEventTarget c).

(** The plugin run over a sequence of native events: what each call returned,
    and the module variables at the end. *)
Fixpoint run (st : State) (calls : list NativeCall)
    : list (option ReactSyntheticEvent) * State :=
  match calls with
  | [] => ([], st)
  | c :: rest =>
      let '(out, st1) := step st c in
      let '(outs, st2) := run st1 rest in
      (out :: outs, st2)
  end.

(** The plugin as the specification describes it without the listener-presence
    short-circuit: every call goes straight to the reaction. *)
Definition step_withoutShortCircuit (st : State) (c : NativeCall)
    : option ReactSyntheticEvent * State :=
  react (nc_platform c) st (nc_topLevelType c) (nc_targetInst c)
    (nc_nativeEvent c) (nc_nativeEventTarget c).

Fixpoint run_withoutShortCircuit (st : State) (calls : list NativeCall)
    : list (option ReactSyntheticEvent) * State :=
  match calls with
  | [] => ([], st)
  | c :: rest =>
      let '(out, st1) := step_withoutShortCircuit st c in
      let '(outs, st2) := run_withoutShortCircuit st1 rest in
      (out :: outs, st2)
  end.

(** What reaches registered listeners: an extracted event is delivered when a
    select handler is mounted at the time of its call, and to nobody otherwise. *)
Definition delivered (c : NativeCall) (out : option ReactSyntheticEvent)
    : option ReactSyntheticEvent :=
  if selectHandlerMounted (nc_platform c) then out else None.

Fixpoint deliveredAll (calls : list NativeCall)
    (outs : list (option ReactSyntheticEvent)) : list (option ReactSyntheticEvent) :=
  match calls, outs with
  | c :: calls', out :: outs' => delivered c out :: deliveredAll calls' outs'
  | _, _ => []
  end.

End Extract.

End SelectEventPlugin.

Module ReactTestUtils.

(** [s.toLowerCase()] on ASCII names. *)
Definition toLowerCaseChar (c : ascii) : ascii :=
  let n := nat_of_ascii c in
  if (65 <=? n)%nat && (n <=? 90)%nat then ascii_of_nat (n + 32) else c.

Fixpoint toLowerCase (s : string) : string :=
  match s with
  | EmptyString => EmptyString
  | String c rest => String (toLowerCaseChar c) (toLowerCase rest)
  end.

Section Simulator.

(** [EventPluginRegistry.eventNameDispatchConfigs]: the table of every injected
    plugin's [eventTypes] (the registry is not among the sources). *)
Variable eventNameDispatchConfigs : gmap string DispatchConfig.

(** [ReactDOMComponentTree.getInstanceFromNode] *)
Variable getInstanceFromNode : DomObject -> option Inst.

(** The function returned by [makeSimulator(eventType)], up to the event it
    hands to [EventPluginHub.runEventsInBatch].  [eventData] stands for
    [Object.assign(event, eventData)].  [None]: the call throws, which it does
    when [eventType] has no dispatch configuration. *)
Definition makeSimulator (eventType : string) (domNode : DomObject)
    (eventData : ReactSyntheticEvent -> ReactSyntheticEvent)
    : option ReactSyntheticEvent :=
  match eventNameDispatchConfigs !! eventType with
  | None => None
  | Some dispatchConfig =>
      let fakeNativeEvent :=
        {| ne_type := toLowerCase eventType;
           ne_button := VUndefined;
           ne_charCode := VUndefined;
           ne_keyCode := VUndefined |} in
      let targetInst := getInstanceFromNode domNode in
      let event :=
        getPooled SyntheticEvent dispatchConfig targetInst fakeNativeEvent domNode in
      let event := eventData event in
      match phasedRegistrationNames dispatchConfig with
      | Some _ => Some (accumulateTwoPhaseDispatches event)
      | None => Some (accumulateDirectDispatches event)
      end
  end.

(** [buildSimulators]: one simulator under every key of the registry. *)
Definition buildSimulators
    : gmap string (DomObject -> (ReactSyntheticEvent -> ReactSyntheticEvent)
                   -> option ReactSyntheticEvent) :=
  map_imap (fun eventType _ => Some (makeSimulator eventType)) eventNameDispatchConfigs.

End Simulator.

(** The key under which [SimulateNative] files the simulator of a top-level
    type: [eventType.indexOf('top') === 0
           ? eventType.charAt(3).toLowerCase() + eventType.substr(4) : eventType]. *)
Definition convenienceName (eventType : string) : string :=
  if String.prefix "top" eventType then
    toLowerCase (substring 3 1 eventType)
    ++ substring 4 (String.length eventType - 4) eventType
  else eventType.

(** ** Searching the rendered tree *)

(** A fiber is known by its identity; its fields live in the heap. *)
Abbreviation FiberId := nat.

(** A public instance ([fiber.stateNode]): a DOM element, a text node or a
    class instance, seen through the properties the utilities read.
    [tagName] is a string on elements and absent elsewhere; [render] and
    [setState] matter only as being functions or not; [_reactInternalFiber] is
    what [ReactInstanceMap.get] returns. *)
Record PublicInst : Type := {
  inst_nodeType : JSVal;
  inst_tagName : option string;
  inst_render_isFunction : bool;
  inst_setState_isFunction : bool;
  inst_reactInternalFiber : option FiberId
}.

Record Fiber : Type := {
  tag : Z;
  stateNode : option PublicInst;
  child : option FiberId;
  sibling : option FiberId;
  return_ : option FiberId
}.

Abbreviation Heap := (gmap FiberId Fiber).

(** [fiber.return = r] *)
Definition set_return (r : option FiberId) (f : Fiber) : Fiber :=
  {| tag := tag f; stateNode := stateNode f; child := child f;
     sibling := sibling f; return_ := r |}.

(** How a call ends: with a value, by throwing, or, in the model only, by
    running out of fuel or following a pointer to no fiber. *)
Inductive Outcome (A : Type) : Type :=
| Value (a : A)
| Thrown
| OutOfFuel
| Dangling.

Arguments Value {A} a.
Arguments Thrown {A}.
Arguments OutOfFuel {A}.
Arguments Dangling {A}.

(** Where the loop of [findAllInRenderedFiberTreeInternal] stands: at the head
    of the outer [while (true)] or at the head of the inner
    [while (!node.sibling)]. *)
Inductive Position : Type :=
| AtNode (node : FiberId)
| Climbing (node : FiberId).

Section FiberTree.

(** The tags of shared/ReactTypeOfWork, which is not among the sources. *)
Variables ClassComponent FunctionalComponent HostComponent HostText : Z.

(** The callback; it is taken to be a pure predicate. *)
Variable test : option PublicInst -> bool.

(** [node.tag === HostComponent || node.tag === HostText ||
     node.tag === ClassComponent || node.tag === FunctionalComponent] *)
Definition isInspected (f : Fiber) : bool :=
  (tag f =? HostComponent) || (tag f =? HostText)
  || (tag f =? ClassComponent) || (tag f =? FunctionalComponent).

(** The first [if] of the loop body: what is pushed for a fiber. *)
Definition pushed (f : Fiber) : list (option PublicInst) :=
  if isInspected f then
    let publicInst := stateNode f in
    if test publicInst then [publicInst] else []
  else [].

(** What is pushed for the fibers [nodes], visited in that order. *)
Definition found (h : Heap) (nodes : list FiberId) : list (option PublicInst) :=
  flat_map (fun node => match h !! node with
                        | Some f => pushed f
                        | None => []
                        end) nodes.

(** The loop of [findAllInRenderedFiberTreeInternal], one unit of fuel per
    iteration of either [while]; the result is [ret] and the heap as the
    assignments to [return] left it. *)
Fixpoint walk (fuel : nat) (h : Heap) (currentParent : FiberId) (pos : Position)
    (ret : list (option PublicInst)) : Outcome (list (option PublicInst) * Heap) :=
  match fuel with
  | O => OutOfFuel
  | S fuel' =>
      match pos with
      | AtNode node =>
          match h !! node with
          | None => Dangling
          | Some f =>
              let ret := (ret ++ pushed f)%list in
              match child f with
              | Some c =>
                  match h !! c with
                  | None => Dangling
                  | Some fc =>
                      walk fuel' (<[c := set_return (Some node) fc]> h) currentParent
                        (AtNode c) ret
                  end
              | None =>
                  if (node =? currentParent)%nat then Value (ret, h)
                  else walk fuel' h currentParent (Climbing node) ret
              end
          end
      | Climbing node =>
          match h !! node with
          | None => Dangling
          | Some f =>
              match sibling f with
              | None =>
                  match return_ f with
                  | None => Value (ret, h)
                  | Some r =>
                      if (r =? currentParent)%nat then Value (ret, h)
                      else walk fuel' h currentParent (Climbing r) ret
                  end
              | Some s =>
                  match h !! s with
                  | None => Dangling
                  | Some fs =>
                      walk fuel' (<[s := set_return (return_ f) fs]> h) currentParent
                        (AtNode s) ret
                  end
              end
          end
      end
  end.

(** [findCurrentFiberUsingSlowPath] of react-reconciler/reflection, which is
    not among the sources: the current fiber of a fiber, or null. *)
Variable findCurrentFiberUsingSlowPath : Heap -> FiberId -> option FiberId.

(** [findAllInRenderedFiberTreeInternal(fiber, test)] *)
Definition findAllInRenderedFiberTreeInternal (fuel : nat) (h : Heap)
    (fiber : option FiberId) : Outcome (list (option PublicInst) * Heap) :=
  match fiber with
  | None => Value ([], h)
  | Some fiber =>
      match findCurrentFiberUsingSlowPath h fiber with
      | None => Value ([], h)
      | Some currentParent => walk fuel h currentParent (AtNode currentParent) []
      end
  end.

End FiberTree.

(** [ReactTestUtils.isDOMComponent]:
    [!!(inst && inst.nodeType === 1 && inst.tagName)] *)
Definition isDOMComponent (inst : option PublicInst) : bool :=
  match inst with
  | None => false
  | Some i =>
      strictEq (inst_nodeType i) (VNum 1)
      && match inst_tagName i with
         | Some name => negb (String.eqb name "")
         | None => false
         end
  end.

(** [ReactTestUtils.isCompositeComponent] *)
Definition isCompositeComponent (inst : option PublicInst) : bool :=
  if isDOMComponent inst then false
  else
    match inst with
    | None => false
    | Some i => inst_render_isFunction i && inst_setState_isFunction i
    end.

(** [s.toUpperCase()] on ASCII names. *)
Fixpoint toUpperCaseString (s : string) : string :=
  match s with
  | EmptyString => EmptyString
  | String c rest => String (toUpperCase c) (toUpperCaseString rest)
  end.

Section Queries.

Variables ClassComponent FunctionalComponent HostComponent HostText : Z.
Variable findCurrentFiberUsingSlowPath : Heap -> FiberId -> option FiberId.

(** [ReactTestUtils.findAllInRenderedTree(inst, test)]; the [invariant]
    throws when [inst] is not a composite component. *)
Definition findAllInRenderedTree (fuel : nat) (h : Heap) (inst : option PublicInst)
    (test : option PublicInst -> bool) : Outcome (list (option PublicInst) * Heap) :=
  match inst with
  | None => Value ([], h)
  | Some i =>
      if isCompositeComponent inst then
        let internalInstance := inst_reactInternalFiber i in
        findAllInRenderedFiberTreeInternal ClassComponent FunctionalComponent
          HostComponent HostText test findCurrentFiberUsingSlowPath fuel h
          internalInstance
      else Thrown
  end.

(** The callback of [scryRenderedDOMComponentsWithTag]. *)
Definition hasTag (tagName : string) (inst : option PublicInst) : bool :=
  isDOMComponent inst
  && match inst with
     | Some i =>
         match inst_tagName i with
         | Some name => String.eqb (toUpperCaseString name) (toUpperCaseString tagName)
         | None => false
         end
     | None => false
     end.

(** [ReactTestUtils.scryRenderedDOMComponentsWithTag(root, tagName)] *)
Definition scryRenderedDOMComponentsWithTag (fuel : nat) (h : Heap)
    (root : option PublicInst) (tagName : string)
    : Outcome (list (option PublicInst) * Heap) :=
  findAllInRenderedTree fuel h root (hasTag tagName).

(** [ReactTestUtils.findRenderedDOMComponentWithTag(root, tagName)]: the one
    match, or an [Error] when the matches are not exactly one. *)
Definition findRenderedDOMComponentWithTag (fuel : nat) (h : Heap)
    (root : option PublicInst) (tagName : string)
    : Outcome (option PublicInst * Heap) :=
  match scryRenderedDOMComponentsWithTag fuel h root tagName with
  | Value (all, h') =>
      match all with
      | [x] => Value (x, h')
      | _ => Thrown
      end
  | Thrown => Thrown
  | OutOfFuel => OutOfFuel
  | Dangling => Dangling
  end.

End Queries.

(** ** Trees laid out in the heap *)

(** A forest in first-child / next-sibling form, as the [child] and [sibling]
    pointers give it: a fiber, the forest of its children, the forest of the
    siblings after it. *)
Inductive Forest : Type :=
| Nil
| Cons (id : FiberId) (children : Forest) (siblings : Forest).

(** The fibers of a forest in document order. *)
Fixpoint ids (f : Forest) : list FiberId :=
  match f with
  | Nil => []
  | Cons id children siblings => (id :: ids children ++ ids siblings)%list
  end.

(** The heap holds the forest [f] behind the pointer [ptr]. *)
Fixpoint layout (h : Heap) (f : Forest) (ptr : option FiberId) : Prop :=
  match f with
  | Nil => ptr = None
  | Cons id children siblings =>
      ptr = Some id
      /\ exists fb, h !! id = Some fb
                    /\ layout h children (child fb)
                    /\ layout h siblings (sibling fb)
  end.

(** Two heaps that differ in [return] pointers at most. *)
Definition sameButReturn (f f' : Fiber) : Prop :=
  tag f = tag f' /\ stateNode f = stateNode f'
  /\ child f = child f' /\ sibling f = sibling f'.

Definition heapShape (h h' : Heap) : Prop :=
  forall id,
    match h !! id, h' !! id with
    | Some f, Some f' => sameButReturn f f'
    | None, None => True
    | _, _ => False
    end.

(** Every fiber of the forest points back to its parent, the roots to [p]. *)
Fixpoint parented (h : Heap) (f : Forest) (p : FiberId) : Prop :=
  match f with
  | Nil => True
  | Cons id children siblings =>
      (exists fb, h !! id = Some fb /\ return_ fb = Some p)
      /\ parented h children id
      /\ parented h siblings p
  end.

End ReactTestUtils.

(** ** Notions used to state the properties *)

(** A name with its first letter capitalised. *)
Definition capitalize (name : string) : string :=
  match name with
  | EmptyString => EmptyString
  | String c rest => String (toUpperCase c) rest
  end.

(** Exactly one of the two registration fields is set. *)
Definition exactlyOneRegistration (cfg : DispatchConfig) : Prop :=
  (is_Some (phasedRegistrationNames cfg) /\ directRegistrationName cfg = None)
  \/ (phasedRegistrationNames cfg = None /\ is_Some (directRegistrationName cfg)).

(** What every entry of the two tables looks like. *)
Definition declared (name : string) (cfg : DispatchConfig) : Prop :=
  exists c rest b, name = String c rest /\ cfg = SimpleEventPlugin.configOf c rest b.

Definition declaredTop (top : string) (cfg : DispatchConfig) : Prop :=
  exists c rest b, top = "top" ++ String (toUpperCase c) rest /\ cfg = SimpleEventPlugin.configOf c rest b.

Definition wellFormed (tb : SimpleEventPlugin.Tables) : Prop :=
  map_Forall declared (SimpleEventPlugin.eventTypes tb)
  /\ map_Forall declaredTop (SimpleEventPlugin.topLevelEventsToDispatchConfig tb).

(** The accumulation that a configuration calls for, read off its
    [phasedRegistrationNames] field alone. *)
Definition propagationFor (cfg : DispatchConfig) : Propagation :=
  match phasedRegistrationNames cfg with
  | Some _ => TwoPhaseDispatches
  | None => DirectDispatches
  end.

(** The registration names that the convention derives from a logical name. *)
Definition conventionalNames (name : string) : PhasedRegistrationNames :=
  {| bubbled := "on" ++ capitalize name;
     captured := ("on" ++ capitalize name) ++ "Capture" |}.

(** The test of the [topFocus] case: a text input, or [contentEditable]
    equal to ['true']. *)
Definition editable (p : SelectEventPlugin.Platform) (node : DomObject) : bool :=
  SelectEventPlugin.isTextInputElement p node
  || strictEq (SelectEventPlugin.prop_contentEditable p node) (VStr "true").

(** The one event the selection plugin can return: generic shape, the
    [select] configuration, type ['select'], targeted at the recorded element
    and its instance, two-phase accumulation requested. *)
Definition selectEvent (a : DomObject) (inst : option Inst) (nativeEvent : NativeEvent)
    : ReactSyntheticEvent :=
  {| ev_shape := SyntheticEvent;
     ev_dispatchConfig := SelectEventPlugin.eventTypes_select;
     ev_targetInst := inst;
     ev_nativeEvent := nativeEvent;
     ev_type := "select";
     ev_target := VRef a;
     ev_accumulated := Some TwoPhaseDispatches |}.

(** The native kind that the classifier derives from a logical name. *)
Definition topOf (name : string) : string := "top" ++ capitalize name.

(** A snapshot or an instance is held only while an element is recorded. *)
Definition coherent (st : SelectEventPlugin.State) : Prop :=
  SelectEventPlugin.activeElement st = None ->
  SelectEventPlugin.activeElementInst st = None
  /\ SelectEventPlugin.lastSelection st = SelectEventPlugin.SelNull.

(** The native kinds on which the selection plugin polls the selection. *)
Definition pollingKinds : list string :=
  ["topContextMenu"; "topMouseUp"; "topSelectionChange"; "topKeyDown"; "topKeyUp"].

(** ** Concrete browsers and events for the examples

    Object 0 is the window, 1 the document, 2 and 3 are text inputs owned by
    instances 10 and 11, 4 is a plain [div] owned by instance 12. *)
Module Sample.

Import SelectEventPlugin.

Definition isInput (o : DomObject) : bool := (o =? 2)%nat || (o =? 3)%nat.

Definition browser (active : option DomObject) (selStart selEnd : Z)
    (listening handler : bool) : Platform :=
  {| window := 0%nat;
     prop_window := fun o => if (o =? 0)%nat then VRef 0%nat else VUndefined;
     prop_document := fun o => if (o =? 0)%nat then Some 1%nat else None;
     prop_nodeType := fun o =>
       if (o =? 0)%nat then VUndefined else if (o =? 1)%nat then VNum 9 else VNum 1;
     prop_ownerDocument := fun o => if (o <=? 1)%nat then None else Some 1%nat;
     prop_contentEditable := fun o =>
       if (o <=? 1)%nat then VUndefined else VStr "inherit";
     has_selectionStart := isInput;
     prop_selectionStart := fun _ => VNum selStart;
     prop_selectionEnd := fun _ => VNum selEnd;
     window_getSelection :=
       Some {| anchorNode := VNull; anchorOffset := VNum 0;
               focusNode := VNull; focusOffset := VNum 0 |};
     getActiveElement := active;
     isTextInputElement := isInput;
     hasSelectionCapabilities := isInput;
     isListeningToAllDependencies := fun _ _ => listening;
     getNodeFromInstance := fun inst => (inst - 8)%nat;
     selectHandlerMounted := handler |}.

Definition nativeEvent (type : string) (button : JSVal) : NativeEvent :=
  {| ne_type := type; ne_button := button;
     ne_charCode := VNum 0; ne_keyCode := VNum 0 |}.

(** A native event of kind [kind] (DOM type [type]) on the node of instance
    [inst], in the browser [p]. *)
Definition call (p : Platform) (kind type : string) (inst : Inst) : NativeCall :=
  {| nc_platform := p;
     nc_topLevelType := kind;
     nc_targetInst := Some inst;
     nc_nativeEvent := nativeEvent type (VNum 0);
     nc_nativeEventTarget := getNodeFromInstance p inst |}.

(** Field 2 is focused, its selection is 0..0, the document listens and a
    select handler is mounted. *)
Definition field2 : Platform := browser (Some 2%nat) 0 0 true true.

(** The same with field 3 focused. *)
Definition field3 : Platform := browser (Some 3%nat) 0 0 true true.

(** Focus field 2, press and release on it; the selection never changes. *)
Definition clickUnchanged : list NativeCall :=
  [ call field2 "topFocus" "focus" 10%nat;
    call field2 "topMouseDown" "mousedown" 10%nat;
    call field2 "topMouseUp" "mouseup" 10%nat ].

(** The same, the selection being 1..4 at the release. *)
Definition clickChanged : list NativeCall :=
  [ call field2 "topFocus" "focus" 10%nat;
    call field2 "topMouseDown" "mousedown" 10%nat;
    call (browser (Some 2%nat) 1 4 true true) "topMouseUp" "mouseup" 10%nat ].

(** Field 2 is focused; the pointer is pressed on field 3, which takes the
    focus (focus-out of 2, focus-in on 3), and released there. *)
Definition clickOtherField : list NativeCall :=
  [ call field2 "topFocus" "focus" 10%nat;
    call field2 "topMouseDown" "mousedown" 11%nat;
    call field3 "topBlur" "blur" 10%nat;
    call field3 "topFocus" "focus" 11%nat;
    call field3 "topMouseUp" "mouseup" 11%nat ].

(** Field 2 is focused and pressed, then loses the focus to nothing; the
    selection changes before the release. *)
Definition pressed : list NativeCall :=
  [ call field2 "topFocus" "focus" 10%nat;
    call field2 "topMouseDown" "mousedown" 10%nat ].

Definition focusOut : NativeCall :=
  call (browser None 0 0 true true) "topBlur" "blur" 10%nat.

Definition selectionMoves : list NativeCall :=
  [ call (browser None 0 4 true true) "topSelectionChange" "selectionchange" 10%nat ].

Definition release : NativeCall :=
  call (browser None 0 4 true true) "topMouseUp" "mouseup" 10%nat.

(** Field 2 takes the focus while the document does not listen and no select
    handler is mounted; a handler is then mounted (the document listens) and
    a key is released. *)
Definition lateMount : list NativeCall :=
  [ call (browser (Some 2%nat) 0 0 false false) "topFocus" "focus" 10%nat;
    call field2 "topKeyUp" "keyup" 10%nat ].

(** Focus and a key release with a moved selection, the document never
    listening and no handler mounted. *)
Definition neverMounted : list NativeCall :=
  [ call (browser (Some 2%nat) 0 0 false false) "topFocus" "focus" 10%nat;
    call (browser (Some 2%nat) 0 3 false false) "topKeyUp" "keyup" 10%nat ].

(** A browser in which field 2 is focused but offers no [selectionStart], and
    [window.getSelection] does not exist. *)
Definition noSelectionApi : Platform :=
  {| window := 0%nat;
     prop_window := prop_window field2;
     prop_document := prop_document field2;
     prop_nodeType := prop_nodeType field2;
     prop_ownerDocument := prop_ownerDocument field2;
     prop_contentEditable := prop_contentEditable field2;
     has_selectionStart := fun _ => false;
     prop_selectionStart := fun _ => VUndefined;
     prop_selectionEnd := fun _ => VUndefined;
     window_getSelection := None;
     getActiveElement := Some 2%nat;
     isTextInputElement := isInput;
     hasSelectionCapabilities := isInput;
     isListeningToAllDependencies := fun _ _ => true;
     getNodeFromInstance := fun inst => (inst - 8)%nat;
     selectHandlerMounted := true |}.

(** Field 2 recorded as focused, nothing stored, pointer up. *)
Definition focused2 : State :=
  {| activeElement := Some 2%nat; activeElementInst := Some 10%nat;
     lastSelection := SelNull; mouseDown := false |}.

(** The same with the pointer pressed. *)
Definition dragging2 : State :=
  {| activeElement := Some 2%nat; activeElementInst := Some 10%nat;
     lastSelection := SelNull; mouseDown := true |}.

(** Keys typed while the pointer is held and the selection moves. *)
Definition keysWhileDragging : list NativeCall :=
  [ call (browser (Some 2%nat) 0 1 true true) "topKeyDown" "keydown" 10%nat;
    call (browser (Some 2%nat) 0 2 true true) "topSelectionChange" "selectionchange" 10%nat;
    call (browser (Some 2%nat) 0 2 true true) "topKeyUp" "keyup" 10%nat ].

(** A key held down: two key-downs and a key-up. *)
Definition keyHeld : list NativeCall :=
  [ call noSelectionApi "topKeyDown" "keydown" 10%nat;
    call noSelectionApi "topKeyDown" "keydown" 10%nat;
    call noSelectionApi "topKeyUp" "keyup" 10%nat ].

(** A rendered tree: the class component 1 renders a [div] 2 holding a [span]
    3 and a text 4, followed by a second [div] 5.  Tags as in React 16.3:
    class component 2, host component 5, host text 6, functional component 1.
    Fiber 9 is a sibling of the root that belongs to another tree; the
    [return] pointers start out stale. *)
Definition element (name : string) : option ReactTestUtils.PublicInst :=
  Some {| ReactTestUtils.inst_nodeType := VNum 1;
          ReactTestUtils.inst_tagName := Some name;
          ReactTestUtils.inst_render_isFunction := false;
          ReactTestUtils.inst_setState_isFunction := false;
          ReactTestUtils.inst_reactInternalFiber := None |}.

Definition textNode : option ReactTestUtils.PublicInst :=
  Some {| ReactTestUtils.inst_nodeType := VNum 3;
          ReactTestUtils.inst_tagName := None;
          ReactTestUtils.inst_render_isFunction := false;
          ReactTestUtils.inst_setState_isFunction := false;
          ReactTestUtils.inst_reactInternalFiber := None |}.

Definition component : option ReactTestUtils.PublicInst :=
  Some {| ReactTestUtils.inst_nodeType := VUndefined;
          ReactTestUtils.inst_tagName := None;
          ReactTestUtils.inst_render_isFunction := true;
          ReactTestUtils.inst_setState_isFunction := true;
          ReactTestUtils.inst_reactInternalFiber := Some 1%nat |}.

Definition fiber (tag : Z) (inst : option ReactTestUtils.PublicInst)
    (child sibling : option ReactTestUtils.FiberId) : ReactTestUtils.Fiber :=
  {| ReactTestUtils.tag := tag; ReactTestUtils.stateNode := inst;
     ReactTestUtils.child := child; ReactTestUtils.sibling := sibling;
     ReactTestUtils.return_ := None |}.

Definition rendered : ReactTestUtils.Heap :=
  list_to_map
    [ (1%nat, fiber 2 component (Some 2%nat) (Some 9%nat));
      (2%nat, fiber 5 (element "DIV") (Some 3%nat) (Some 5%nat));
      (3%nat, fiber 5 (element "SPAN") None (Some 4%nat));
      (4%nat, fiber 6 textNode None None);
      (5%nat, fiber 5 (element "DIV") None None);
      (9%nat, fiber 5 (element "DIV") None None) ].

Definition renderedChildren : ReactTestUtils.Forest :=
  ReactTestUtils.Cons 2%nat
    (ReactTestUtils.Cons 3%nat ReactTestUtils.Nil
       (ReactTestUtils.Cons 4%nat ReactTestUtils.Nil ReactTestUtils.Nil))
    (ReactTestUtils.Cons 5%nat ReactTestUtils.Nil ReactTestUtils.Nil).

(** A direct (non-bubbling) logical event, and a registry holding it beside
    the selection plugin's [select]. *)
Definition mouseEnter : DispatchConfig :=
  {| phasedRegistrationNames := None;
     directRegistrationName := Some "onMouseEnter";
     dependencies := ["topMouseOut"; "topMouseOver"];
     isInteractive := None |}.

Definition registry : gmap string DispatchConfig :=
  <[ "mouseEnter" := mouseEnter ]> SelectEventPlugin.eventTypes.

(** A decoder in the manner of [getEventCharCode]: the [charCode] field when it
    is a number, else 0. *)
Definition charCodeOf (e : NativeEvent) : Z :=
  match ne_charCode e with
  | VNum z => z
  | _ => 0
  end.

End Sample.

(** * Properties of the classifier plugin *)

Module SimpleFacts.

Import SimpleEventPlugin.

Lemma wellFormed_empty : wellFormed emptyTables.
Proof. split; apply map_Forall_empty. Qed.

Lemma wellFormed_add event b tb tb' :
  wellFormed tb ->
  addEventTypeNameToConfig event b tb = Some tb' ->
  wellFormed tb'.
Proof.
  intros [Hev Htop] Hadd. destruct event as [|c rest]; [discriminate|].
  injection Hadd as <-. split; cbn [eventTypes topLevelEventsToDispatchConfig].
  - apply map_Forall_insert_2; [|exact Hev]. exists c, rest, b. auto.
  - apply map_Forall_insert_2; [|exact Htop]. exists c, rest, b. auto.
Qed.

Lemma wellFormed_forEach names b : forall tb tb',
  wellFormed tb -> forEachAdd names b tb = Some tb' -> wellFormed tb'.
Proof.
  induction names as [|n names IH]; intros tb tb' Hwf Hrun; cbn in Hrun.
  - injection Hrun as <-. exact Hwf.
  - destruct (addEventTypeNameToConfig n b tb) as [tb1|] eqn:Hadd; [|discriminate].
    eapply IH; [|exact Hrun]. eapply wellFormed_add; eauto.
Qed.

(** Module initialisation does not throw: every listed name is non-empty. *)
Lemma forEachAdd_total names b : forall tb,
  Forall (fun n => n <> EmptyString) names -> is_Some (forEachAdd names b tb).
Proof.
  induction names as [|n names IH]; intros tb Hnames; cbn.
  - eauto.
  - inversion Hnames as [|? ? Hn Hrest]; subst.
    destruct n as [|c rest]; [congruence|]. cbn. apply IH. exact Hrest.
Qed.

Lemma tables_built :
  exists tb1,
    forEachAdd interactiveEventTypeNames true emptyTables = Some tb1
    /\ forEachAdd nonInteractiveEventTypeNames false tb1 = Some tables.
Proof.
  destruct (forEachAdd_total interactiveEventTypeNames true emptyTables) as [tb1 H1].
  { unfold interactiveEventTypeNames. repeat constructor; intros [=]. }
  destruct (forEachAdd_total nonInteractiveEventTypeNames false tb1) as [tb2 H2].
  { unfold nonInteractiveEventTypeNames. repeat constructor; intros [=]. }
  exists tb1. split; [exact H1|].
  unfold tables, initTables. rewrite H1, H2. reflexivity.
Qed.

Lemma wellFormed_tables : wellFormed tables.
Proof.
  destruct tables_built as [tb1 [H1 H2]].
  eapply wellFormed_forEach; [|exact H2].
  eapply wellFormed_forEach; [|exact H1]. apply wellFormed_empty.
Qed.

Lemma initTables_ok : initTables = Some tables.
Proof.
  destruct tables_built as [tb1 [H1 H2]]. unfold initTables. rewrite H1. exact H2.
Qed.

(** From here on the table is used through its lemmas and by evaluation. *)
#[global] Opaque tables.

Lemma lookup_topClick :
  topLevelEventsToDispatchConfig tables !! "topClick" = Some (configOf "c" "lick" true).
Proof. vm_compute. reflexivity. Qed.

Lemma lookup_topKeyPress :
  topLevelEventsToDispatchConfig tables !! "topKeyPress"
  = Some (configOf "k" "eyPress" true).
Proof. vm_compute. reflexivity. Qed.

End SimpleFacts.

Module SimpleTheorems.

Import SimpleEventPlugin SimpleFacts.

(** From [isCase t cases = false], every label of [cases] differs from [t]. *)
Ltac split_cases H :=
  unfold isCase in H; cbn [existsb] in H;
  repeat (apply orb_false_elim in H;
          let H1 := fresh "Hne" in destruct H as [H1 H];
          try rewrite H1).

(** C3: a native click whose button code is 2 yields no synthetic event from
    the classifier (and no warning), whatever the build, the target and the
    other fields of the event. *)
Theorem right_click_discarded :
  forall (dev : bool) (getEventCharCode : NativeEvent -> Z)
         (targetInst : option Inst) (nativeEvent : NativeEvent)
         (nativeEventTarget : DomObject),
    ne_button nativeEvent = VNum 2 ->
    extractEvents dev getEventCharCode "topClick" targetInst nativeEvent
      nativeEventTarget = (None, []).
Proof.
  intros dev gcc inst ne tgt Hbutton.
  unfold extractEvents. rewrite lookup_topClick.
  cbn [String.eqb Ascii.eqb Bool.eqb isCase existsb orb].
  rewrite Hbutton. reflexivity.
Qed.

Lemma right_click_discarded_witness :
  extractEvents true Sample.charCodeOf "topClick" (Some 12%nat)
    (Sample.nativeEvent "click" (VNum 2)) 4%nat = (None, []).
Proof. apply right_click_discarded. reflexivity. Defined.

(** C4: a native key-press whose decoded character code is 0 yields no
    synthetic event from the classifier (and no warning). *)
Theorem zero_charcode_keypress_discarded :
  forall (dev : bool) (getEventCharCode : NativeEvent -> Z)
         (targetInst : option Inst) (nativeEvent : NativeEvent)
         (nativeEventTarget : DomObject),
    getEventCharCode nativeEvent = 0 ->
    extractEvents dev getEventCharCode "topKeyPress" targetInst nativeEvent
      nativeEventTarget = (None, []).
Proof.
  intros dev gcc inst ne tgt Hcode.
  unfold extractEvents. rewrite lookup_topKeyPress.
  cbn [String.eqb Ascii.eqb Bool.eqb]. rewrite Hcode. reflexivity.
Qed.

Lemma zero_charcode_keypress_discarded_witness :
  extractEvents false Sample.charCodeOf "topKeyPress" (Some 10%nat)
    (Sample.nativeEvent "keypress" (VNum 0)) 2%nat = (None, []).
Proof. apply zero_charcode_keypress_discarded. reflexivity. Defined.

(** C5, as stated, fails: a kind that the classifier does not know at all
    ([topSelectionChange] has no dispatch configuration) is not given the
    generic shape; the guard at the head of [extractEvents] returns [null]. *)
Lemma unrecognized_kind_counterexample :
  isCase "topSelectionChange" switchCases = false
  /\ ~ (exists ev,
          fst (extractEvents true Sample.charCodeOf "topSelectionChange" (Some 10%nat)
                 (Sample.nativeEvent "selectionchange" (VNum 0)) 2%nat) = Some ev
          /\ ev_shape ev = SyntheticEvent).
Proof.
  split; [reflexivity|]. intros [ev [H _]]. vm_compute in H. discriminate.
Qed.

(** C5, amended: for a native kind that is none of the [switch] labels,
    extraction always returns; it returns [null] and reports nothing when the
    kind has no dispatch configuration, and otherwise returns one event of the
    generic [SyntheticEvent] shape with two-phase accumulation requested.  A
    warning is printed only in a development build and only for a kind absent
    from [knownHTMLTopLevelTypes]; a production build reports nothing. *)
Theorem unrecognized_kind_fallback :
  forall (dev : bool) (getEventCharCode : NativeEvent -> Z) (topLevelType : string)
         (targetInst : option Inst) (nativeEvent : NativeEvent)
         (nativeEventTarget : DomObject),
    isCase topLevelType switchCases = false ->
    let result :=
      extractEvents dev getEventCharCode topLevelType targetInst nativeEvent
        nativeEventTarget in
    (topLevelEventsToDispatchConfig tables !! topLevelType = None ->
       result = (None, []))
    /\ (forall cfg,
          topLevelEventsToDispatchConfig tables !! topLevelType = Some cfg ->
          fst result
          = Some (accumulateTwoPhaseDispatches
                    (getPooled SyntheticEvent cfg targetInst nativeEvent
                       nativeEventTarget)))
    /\ (snd result <> [] ->
          dev = true /\ indexOfIsMinusOne knownHTMLTopLevelTypes topLevelType = true)
    /\ (dev = false -> snd result = []).
Proof.
  intros dev gcc t inst ne tgt Hcases result. subst result.
  unfold extractEvents, isCase.
  destruct (topLevelEventsToDispatchConfig tables !! t) as [cfg|].
  - cbn [existsb].
    split_cases Hcases. cbn [orb fst snd].
    unfold defaultCaseWarnings, construct.
    split; [intros [=]|].
    split; [intros cfg' [= <-]; reflexivity|].
    split; [|intros ->; reflexivity].
    destruct dev; [|contradiction].
    destruct (indexOfIsMinusOne knownHTMLTopLevelTypes t); [split; reflexivity|contradiction].
  - cbn [fst snd].
    split; [reflexivity|].
    split; [intros cfg' [=]|].
    split; [contradiction|reflexivity].
Qed.

Lemma unrecognized_kind_fallback_witness :
  fst (extractEvents true Sample.charCodeOf "topSubmit" (Some 12%nat)
         (Sample.nativeEvent "submit" (VNum 0)) 4%nat)
  = Some (accumulateTwoPhaseDispatches
            (getPooled SyntheticEvent (configOf "s" "ubmit" true) (Some 12%nat)
               (Sample.nativeEvent "submit" (VNum 0)) 4%nat)).
Proof.
  refine (proj1 (proj2 (unrecognized_kind_fallback true Sample.charCodeOf "topSubmit"
                          (Some 12%nat) (Sample.nativeEvent "submit" (VNum 0)) 4%nat
                          _)) (configOf "s" "ubmit" true) _).
  - reflexivity.
  - vm_compute. reflexivity.
Defined.

(** The keys of the dispatch table are the listed names, prefixed. *)
Lemma forEachAdd_keys names b : forall tb tb' (seen : list string),
  (forall k, is_Some (topLevelEventsToDispatchConfig tb !! k) -> In k seen) ->
  forEachAdd names b tb = Some tb' ->
  forall k, is_Some (topLevelEventsToDispatchConfig tb' !! k) ->
            In k (seen ++ map (fun n => "top" ++ capitalize n) names).
Proof.
  induction names as [|n names IH]; intros tb tb' seen Hseen Hrun k Hk; cbn in Hrun.
  - injection Hrun as <-. rewrite app_nil_r. auto.
  - destruct n as [|c rest]; [inversion Hrun|]. cbn in Hrun.
    match type of Hrun with forEachAdd _ _ ?tb1 = _ => specialize (IH tb1) end.
    specialize (IH tb' (app seen [String.append "top" (String (toUpperCase c) rest)])).
    cbn [map]. change (?x :: ?l) with ([x] ++ l)%list. rewrite app_assoc.
    eapply IH; [|exact Hrun|exact Hk].
    intros k' Hk'. cbn [topLevelEventsToDispatchConfig] in Hk'.
    apply in_or_app. rewrite lookup_insert in Hk'. case_decide.
    + right. left. assumption.
    + left. auto.
Qed.

Lemma tables_keys : forall k,
  is_Some (topLevelEventsToDispatchConfig tables !! k) ->
  In k (map (fun n => "top" ++ capitalize n)
          (interactiveEventTypeNames ++ nonInteractiveEventTypeNames)).
Proof.
  intros k Hk. destruct tables_built as [tb1 [H1 H2]].
  rewrite map_app.
  eapply (forEachAdd_keys _ _ tb1 tables); [|exact H2|exact Hk].
  intros k1 Hk1.
  eapply (forEachAdd_keys _ _ emptyTables tb1 []); [|exact H1|exact Hk1].
  intros k0 [x Hx]. cbn in Hx. rewrite lookup_empty in Hx. inversion Hx.
Qed.

(** Every kind that has a dispatch configuration and reaches the [default:]
    branch is on the allow-list, so the warning is silent for the table as
    declared. *)
Lemma declared_default_kinds_are_known :
  forall (topLevelType : string),
    is_Some (topLevelEventsToDispatchConfig tables !! topLevelType) ->
    isCase topLevelType switchCases = false ->
    defaultCaseWarnings true topLevelType = [].
Proof.
  intros t Hcfg Hcases. apply tables_keys in Hcfg.
  assert (Hall : Forall (fun k => isCase k switchCases = false ->
                                  defaultCaseWarnings true k = [])
                   (map (fun n => "top" ++ capitalize n)
                      (interactiveEventTypeNames ++ nonInteractiveEventTypeNames))).
  { clear. vm_compute. repeat constructor; intros H; solve [reflexivity | inversion H]. }
  rewrite List.Forall_forall in Hall. apply Hall; assumption.
Qed.

(** Every listed name ends up declared. *)
Lemma forEachAdd_keeps names b : forall tb tb' n,
  is_Some (eventTypes tb !! n) ->
  forEachAdd names b tb = Some tb' ->
  is_Some (eventTypes tb' !! n).
Proof.
  induction names as [|m names IH]; intros tb tb' n Hn Hrun; cbn in Hrun.
  - injection Hrun as <-. exact Hn.
  - destruct m as [|c rest]; [inversion Hrun|]. cbn in Hrun.
    eapply IH; [|exact Hrun]. cbn [eventTypes].
    rewrite lookup_insert. case_decide; [eauto|exact Hn].
Qed.

Lemma forEachAdd_declares names b : forall tb tb' n,
  In n names ->
  forEachAdd names b tb = Some tb' ->
  is_Some (eventTypes tb' !! n).
Proof.
  induction names as [|m names IH]; intros tb tb' n Hn Hrun; cbn in Hrun.
  - destruct Hn.
  - destruct m as [|c rest]; [inversion Hrun|]. cbn in Hrun.
    destruct Hn as [<-|Hn].
    + eapply forEachAdd_keeps; [|exact Hrun]. cbn [eventTypes].
      rewrite lookup_insert_eq. eauto.
    + eapply IH; eauto.
Qed.

Lemma configOf_names c rest b :
  phasedRegistrationNames (configOf c rest b) = Some (conventionalNames (String c rest))
  /\ dependencies (configOf c rest b) = ["top" ++ capitalize (String c rest)].
Proof. split; reflexivity. Qed.

(** C7: for a logical event named X, [addEventTypeNameToConfig] registers the
    bubble name "on" + X capitalised and the capture name that bubble name +
    "Capture", with the single dependency "top" + X capitalised, under X in
    [eventTypes] and under that dependency in the dispatch table; every entry
    of the classifier's [eventTypes] has this form, every listed name has an
    entry, and the selection plugin's [select] follows the same naming. *)
Theorem registration_names_follow_convention :
  (forall (c : ascii) (rest : string) (b : bool) (tb : Tables),
     exists tb',
       addEventTypeNameToConfig (String c rest) b tb = Some tb'
       /\ eventTypes tb' !! String c rest = Some (configOf c rest b)
       /\ topLevelEventsToDispatchConfig tb' !! ("top" ++ capitalize (String c rest))
          = Some (configOf c rest b)
       /\ phasedRegistrationNames (configOf c rest b)
          = Some (conventionalNames (String c rest))
       /\ dependencies (configOf c rest b) = ["top" ++ capitalize (String c rest)])
  /\ (forall (name : string) (cfg : DispatchConfig),
        eventTypes tables !! name = Some cfg ->
        phasedRegistrationNames cfg = Some (conventionalNames name)
        /\ dependencies cfg = ["top" ++ capitalize name])
  /\ (forall name : string,
        In name (interactiveEventTypeNames ++ nonInteractiveEventTypeNames) ->
        is_Some (eventTypes tables !! name))
  /\ (forall (name : string) (cfg : DispatchConfig),
        SelectEventPlugin.eventTypes !! name = Some cfg ->
        phasedRegistrationNames cfg = Some (conventionalNames name)).
Proof.
  split; [|split; [|split]].
  - intros c rest b tb. eexists. split; [reflexivity|].
    cbn [eventTypes topLevelEventsToDispatchConfig capitalize].
    rewrite !lookup_insert_eq. repeat split; reflexivity.
  - intros name cfg Hcfg.
    destruct wellFormed_tables as [Hev _].
    destruct (map_Forall_lookup_1 _ _ _ _ Hev Hcfg) as (c & rest & b & -> & ->).
    apply configOf_names.
  - intros name Hin. destruct tables_built as [tb1 [H1 H2]].
    apply in_app_or in Hin as [Hin|Hin].
    + eapply forEachAdd_keeps; [|exact H2]. eapply forEachAdd_declares; eauto.
    + eapply forEachAdd_declares; eauto.
  - intros name cfg Hcfg. unfold SelectEventPlugin.eventTypes in Hcfg.
    apply lookup_singleton_Some in Hcfg as [<- <-]. reflexivity.
Qed.

(** Whatever the classifier returns was built by [construct] from the
    dispatch configuration of the kind. *)
Lemma extractEvents_constructs :
  forall dev gcc t inst ne tgt ev,
    fst (extractEvents dev gcc t inst ne tgt) = Some ev ->
    exists shape cfg,
      topLevelEventsToDispatchConfig tables !! t = Some cfg
      /\ ev = construct shape cfg inst ne tgt.
Proof.
  intros dev gcc t inst ne tgt ev. unfold extractEvents.
  destruct (topLevelEventsToDispatchConfig tables !! t) as [cfg|]; [|intros [=]].
  repeat lazymatch goal with
         | |- fst (if ?b then _ else _) = _ -> _ => destruct b
         end;
    cbn [fst]; intros [= <-]; eauto.
Qed.

(** C8: every logical event declared by the two plugins has exactly one of the
    two registration fields set (the phased one); the simulator chooses the
    accumulation from [phasedRegistrationNames] alone, two-phase when it is
    set and direct otherwise; and the events the plugins extract carry a
    phased configuration and request two-phase accumulation. *)
Theorem propagation_mode_follows_registration :
  (forall (name : string) (cfg : DispatchConfig),
     eventTypes tables !! name = Some cfg
     \/ SelectEventPlugin.eventTypes !! name = Some cfg ->
     exactlyOneRegistration cfg /\ propagationFor cfg = TwoPhaseDispatches)
  /\ (forall (registry : gmap string DispatchConfig)
             (getInstanceFromNode : DomObject -> option Inst)
             (eventType : string) (domNode : DomObject)
             (eventData : ReactSyntheticEvent -> ReactSyntheticEvent)
             (cfg : DispatchConfig),
        registry !! eventType = Some cfg ->
        exists ev,
          ReactTestUtils.makeSimulator registry getInstanceFromNode eventType domNode
            eventData = Some ev
          /\ ev_accumulated ev = Some (propagationFor cfg))
  /\ (forall dev gcc t inst ne tgt ev,
        fst (extractEvents dev gcc t inst ne tgt) = Some ev ->
        ev_accumulated ev = Some (propagationFor (ev_dispatchConfig ev))
        /\ propagationFor (ev_dispatchConfig ev) = TwoPhaseDispatches)
  /\ (forall p st ne tgt ev,
        fst (SelectEventPlugin.constructSelectEvent p st ne tgt) = Some ev ->
        ev_accumulated ev = Some (propagationFor (ev_dispatchConfig ev))
        /\ propagationFor (ev_dispatchConfig ev) = TwoPhaseDispatches).
Proof.
  split; [|split; [|split]].
  - intros name cfg [Hcfg|Hcfg].
    + destruct wellFormed_tables as [Hev _].
      destruct (map_Forall_lookup_1 _ _ _ _ Hev Hcfg) as (c & rest & b & -> & ->).
      split; [left; split; [eexists|]|]; reflexivity.
    + unfold SelectEventPlugin.eventTypes in Hcfg.
      apply lookup_singleton_Some in Hcfg as [<- <-].
      split; [left; split; [eexists|]|]; reflexivity.
  - intros registry gi eventType domNode eventData cfg Hcfg.
    unfold ReactTestUtils.makeSimulator, propagationFor. rewrite Hcfg.
    destruct (phasedRegistrationNames cfg); eexists; split; reflexivity.
  - intros dev gcc t inst ne tgt ev Hev.
    apply extractEvents_constructs in Hev as (shape & cfg & Hcfg & ->).
    destruct wellFormed_tables as [_ Htop].
    destruct (map_Forall_lookup_1 _ _ _ _ Htop Hcfg) as (c & rest & b & _ & ->).
    split; reflexivity.
  - intros p st ne tgt ev. unfold SelectEventPlugin.constructSelectEvent.
    destruct (SelectEventPlugin.guardsBlock p st); [intros [=]|].
    destruct (SelectEventPlugin.activeElement st); [|intros [=]].
    match goal with |- fst (if ?b then _ else _) = _ -> _ => destruct b end;
      cbn [fst]; intros [= <-]; split; reflexivity.
Qed.

Lemma propagation_mode_follows_registration_witness :
  exists ev,
    ReactTestUtils.makeSimulator Sample.registry (fun node => Some (node + 8)%nat)
      "mouseEnter" 4%nat (fun e => e) = Some ev
    /\ ev_accumulated ev = Some (propagationFor Sample.mouseEnter).
Proof.
  apply (proj1 (proj2 propagation_mode_follows_registration)).
  vm_compute. reflexivity.
Defined.

Lemma registration_names_follow_convention_witness :
  phasedRegistrationNames (configOf "c" "lick" true) = Some (conventionalNames "click")
  /\ dependencies (configOf "c" "lick" true) = ["top" ++ capitalize "click"].
Proof.
  apply (proj1 (proj2 registration_names_follow_convention) "click").
  vm_compute. reflexivity.
Defined.

End SimpleTheorems.

(** * Properties of the selection plugin *)

Module SelectFacts.

Import SelectEventPlugin.

Lemma constructSelectEvent_blocked p st ne tgt :
  guardsBlock p st = true -> constructSelectEvent p st ne tgt = (None, st).
Proof. intros H. unfold constructSelectEvent. rewrite H. reflexivity. Qed.

Lemma guardsBlock_true p st :
  guardsBlock p st = true <->
  mouseDown st = true \/ activeElement st = None
  \/ getActiveElement p <> activeElement st.
Proof.
  unfold guardsBlock. destruct (mouseDown st); cbn [orb]; [tauto|].
  destruct (activeElement st) as [a|].
  - rewrite negb_true_iff, bool_decide_eq_false.
    split; [tauto|]. intros [H|[H|H]]; [inversion H|inversion H|exact H].
  - split; auto.
Qed.

Lemma constructSelectEvent_no_active p st ne tgt :
  activeElement st = None -> constructSelectEvent p st ne tgt = (None, st).
Proof.
  intros H. apply constructSelectEvent_blocked, guardsBlock_true. auto.
Qed.

(** An emission attempt touches [lastSelection] only. *)
Lemma constructSelectEvent_frame p st ne tgt :
  let st' := snd (constructSelectEvent p st ne tgt) in
  activeElement st' = activeElement st
  /\ activeElementInst st' = activeElementInst st
  /\ mouseDown st' = mouseDown st.
Proof.
  unfold constructSelectEvent.
  destruct (guardsBlock p st); [cbn; auto|].
  destruct (activeElement st) eqn:Ha; [|cbn; auto].
  match goal with |- context [if ?b then _ else _] => destruct b end; cbn; auto.
Qed.

(** With no focused element recorded, no call emits, and only a focus-in
    can record one. *)
Lemma react_no_active skip p st t inst ne tgt :
  activeElement st = None ->
  fst (react skip p st t inst ne tgt) = None
  /\ (t <> "topFocus" -> activeElement (snd (react skip p st t inst ne tgt)) = None).
Proof.
  intros Hnone. unfold react.
  destruct (String.eqb_spec t "topFocus") as [->|Hne].
  { split; [|congruence]. match goal with |- context [if ?b then _ else _] => destruct b end;
      reflexivity. }
  repeat match goal with
         | |- context [if String.eqb t ?k then _ else _] => destruct (String.eqb t k)
         | |- context [if isCase t ?k then _ else _] => destruct (isCase t k)
         | |- context [if skip then _ else _] => destruct skip
         end;
    rewrite ?constructSelectEvent_no_active by exact Hnone; cbn; auto.
Qed.

Lemma step_no_active D skip st c :
  activeElement st = None ->
  fst (step D skip st c) = None
  /\ (nc_topLevelType c <> "topFocus" -> activeElement (snd (step D skip st c)) = None).
Proof.
  intros Hnone. unfold step, extractEvents.
  destruct (notListening D (nc_platform c) (nc_nativeEventTarget c)).
  - cbn. auto.
  - apply react_no_active. exact Hnone.
Qed.

Lemma run_app D skip calls1 : forall st calls2,
  run D skip st (calls1 ++ calls2)
  = ((fst (run D skip st calls1)
        ++ fst (run D skip (snd (run D skip st calls1)) calls2))%list,
     snd (run D skip (snd (run D skip st calls1)) calls2)).
Proof.
  induction calls1 as [|c calls1 IH]; intros st calls2; cbn [run app].
  - cbn. destruct (run D skip st calls2); reflexivity.
  - destruct (step D skip st c) as [out st1]. rewrite IH.
    destruct (run D skip st1 calls1) as [outs1 st2]. cbn [fst snd].
    destruct (run D skip st2 calls2); reflexivity.
Qed.

Lemma run_length D skip calls : forall st,
  length (fst (run D skip st calls)) = length calls.
Proof.
  induction calls as [|c calls IH]; intros st; cbn [run]; [reflexivity|].
  destruct (step D skip st c) as [out st1]. specialize (IH st1).
  destruct (run D skip st1 calls). cbn in *. congruence.
Qed.

Lemma run_withoutShortCircuit_length skip calls : forall st,
  length (fst (run_withoutShortCircuit skip st calls)) = length calls.
Proof.
  induction calls as [|c calls IH]; intros st; cbn [run_withoutShortCircuit];
    [reflexivity|].
  destruct (step_withoutShortCircuit skip st c) as [out st1]. specialize (IH st1).
  destruct (run_withoutShortCircuit skip st1 calls). cbn in *. congruence.
Qed.

(** While no focus-in arrives and nothing is recorded, the run is silent. *)
Lemma run_no_active D skip calls : forall st,
  activeElement st = None ->
  Forall (fun c => nc_topLevelType c <> "topFocus") calls ->
  fst (run D skip st calls) = repeat None (length calls)
  /\ activeElement (snd (run D skip st calls)) = None.
Proof.
  induction calls as [|c calls IH]; intros st Hnone Hall; cbn [run].
  - cbn. auto.
  - inversion Hall as [|? ? Hc Hrest]; subst.
    destruct (step_no_active D skip st c Hnone) as [Hout Hst].
    destruct (step D skip st c) as [out st1]. cbn in Hout, Hst. subst out.
    destruct (IH st1 (Hst Hc) Hrest) as [Houts Hst2].
    destruct (run D skip st1 calls) as [outs st2]. cbn in *. subst outs. auto.
Qed.

(** On the snapshots that [getSelection] produces, [shallowEqual] is
    equality of the snapshots. *)
Lemma shallowEqual_getSelection p a p' a' :
  shallowEqual (getSelection p a) (getSelection p' a') = true
  <-> getSelection p a = getSelection p' a'.
Proof.
  unfold getSelection.
  destruct (has_selectionStart p a && hasSelectionCapabilities p a);
    destruct (has_selectionStart p' a' && hasSelectionCapabilities p' a');
    destruct (window_getSelection p) as [sel|];
    destruct (window_getSelection p') as [sel'|];
    cbn; unfold objectIs;
    repeat match goal with
           | |- context [bool_decide (?x = ?y)] =>
               destruct (bool_decide_reflect (x = y))
           end;
    cbn; split; intros H; try reflexivity; try discriminate H; try congruence.
Qed.

(** What an attempt that passes the guards does. *)
Lemma constructSelectEvent_passing p st ne tgt a :
  guardsBlock p st = false ->
  activeElement st = Some a ->
  constructSelectEvent p st ne tgt
  = if negb (truthy (lastSelection st))
       || negb (shallowEqual (lastSelection st) (getSelection p a))
    then (Some (selectEvent a (activeElementInst st) ne),
          set_lastSelection (getSelection p a) st)
    else (None, st).
Proof.
  intros Hg Ha. unfold constructSelectEvent. rewrite Hg, Ha. reflexivity.
Qed.

End SelectFacts.

Module SelectTheorems.

Import SelectEventPlugin SelectFacts.

(** C2: an emission attempt produces no event, and changes nothing, when the
    pressed flag is set, or no focused element is recorded, or the platform's
    focused element is not the recorded one.  So a selection-change, key-down
    or key-up yields nothing under any of the three conditions on the state it
    arrives in; a pointer-up or context-menu, which clears the flag before its
    attempt, yields nothing under either of the other two. *)
Theorem emission_guards :
  (forall p st ne tgt,
     mouseDown st = true \/ activeElement st = None
     \/ getActiveElement p <> activeElement st ->
     constructSelectEvent p st ne tgt = (None, st))
  /\ (forall D skip p st t inst ne tgt,
        In t ["topSelectionChange"; "topKeyDown"; "topKeyUp"] ->
        mouseDown st = true \/ activeElement st = None
        \/ getActiveElement p <> activeElement st ->
        extractEvents D skip p st t inst ne tgt = (None, st))
  /\ (forall D skip p st t inst ne tgt,
        In t ["topContextMenu"; "topMouseUp"] ->
        activeElement st = None \/ getActiveElement p <> activeElement st ->
        fst (extractEvents D skip p st t inst ne tgt) = None).
Proof.
  split; [|split].
  - intros p st ne tgt H. apply constructSelectEvent_blocked, guardsBlock_true, H.
  - intros D skip p st t inst ne tgt Ht H. unfold extractEvents.
    destruct (notListening D p tgt); [reflexivity|].
    apply guardsBlock_true in H.
    unfold react. cbn in Ht.
    destruct Ht as [<-|[<-|[<-|[]]]]; cbn;
      try destruct skip; rewrite ?constructSelectEvent_blocked by exact H; reflexivity.
  - intros D skip p st t inst ne tgt Ht H. unfold extractEvents.
    destruct (notListening D p tgt); [reflexivity|].
    assert (Hg : guardsBlock p (set_mouseDown false st) = true).
    { apply guardsBlock_true. right. exact H. }
    unfold react. cbn in Ht.
    destruct Ht as [<-|[<-|[]]]; cbn;
      rewrite constructSelectEvent_blocked by exact Hg; reflexivity.
Qed.

Lemma emission_guards_witness :
  extractEvents 9 false (Sample.browser (Some 3%nat) 0 5 true true)
    {| activeElement := Some 2%nat; activeElementInst := Some 10%nat;
       lastSelection := SelNull; mouseDown := false |}
    "topKeyUp" (Some 10%nat) (Sample.nativeEvent "keyup" (VNum 0)) 2%nat
  = (None,
     {| activeElement := Some 2%nat; activeElementInst := Some 10%nat;
        lastSelection := SelNull; mouseDown := false |}).
Proof.
  apply (proj1 (proj2 emission_guards)).
  - right. right. left. reflexivity.
  - right. right. cbn. intros [=].
Defined.

(** C10: a focus-in whose target is neither a text input nor an element with
    [contentEditable] equal to ['true'] returns no event and leaves the four
    module variables as they were; hence a run that starts with it continues
    exactly as the run without it. *)
Theorem non_editable_focus_is_ignored :
  forall D skip p st inst ne tgt,
    isTextInputElement p (targetNodeOf p inst) = false ->
    prop_contentEditable p (targetNodeOf p inst) <> VStr "true" ->
    extractEvents D skip p st "topFocus" inst ne tgt = (None, st)
    /\ forall later,
         run D skip st
           ({| nc_platform := p; nc_topLevelType := "topFocus"; nc_targetInst := inst;
               nc_nativeEvent := ne; nc_nativeEventTarget := tgt |} :: later)
         = (None :: fst (run D skip st later), snd (run D skip st later)).
Proof.
  intros D skip p st inst ne tgt Htext Hedit.
  assert (Hstep : extractEvents D skip p st "topFocus" inst ne tgt = (None, st)).
  { unfold extractEvents. destruct (notListening D p tgt); [reflexivity|].
    unfold react. cbn [String.eqb Ascii.eqb Bool.eqb]. rewrite Htext. cbn [orb].
    unfold strictEq. rewrite bool_decide_eq_false_2 by exact Hedit. reflexivity. }
  split; [exact Hstep|].
  intros later. cbn [run]. unfold step. cbn [nc_platform nc_topLevelType nc_targetInst
    nc_nativeEvent nc_nativeEventTarget]. rewrite Hstep.
  destruct (run D skip st later); reflexivity.
Qed.

Lemma non_editable_focus_is_ignored_witness :
  extractEvents 9 false (Sample.browser (Some 4%nat) 0 0 true true) initialState
    "topFocus" (Some 12%nat) (Sample.nativeEvent "focus" (VNum 0)) 4%nat
  = (None, initialState).
Proof.
  apply non_editable_focus_is_ignored.
  - reflexivity.
  - cbn. intros [=].
Defined.

(** C6, as stated, fails: a sequence with a focus-out between pointer-down
    and pointer-up in which the focus moves on to another text field (press on
    field 3 while field 2 is focused: pointer-down, focus-out of 2, focus-in
    on 3, pointer-up) does produce a select event at the pointer-up. *)
Lemma focus_out_then_focus_in_counterexample :
  fst (run 9 false initialState Sample.clickOtherField)
  = [ None; None; None; None;
      Some (selectEvent 3%nat (Some 11%nat) (Sample.nativeEvent "mouseup" (VNum 0))) ].
Proof. vm_compute. reflexivity. Qed.

(** C6, amended: a focus-out that passes the listener-presence check clears
    the recorded element, its instance and the last snapshot (the pressed flag
    stays); consequently, whatever came before it, if no focus-in arrives
    between that focus-out and a later event, in particular a pointer-up,
    then that event and all events in between produce nothing, whatever the
    selection does. *)
Theorem focus_out_silences_until_next_focus :
  (forall D skip p st inst ne tgt,
     notListening D p tgt = false ->
     extractEvents D skip p st "topBlur" inst ne tgt
     = (None, {| activeElement := None; activeElementInst := None;
                 lastSelection := SelNull; mouseDown := mouseDown st |}))
  /\ (forall D skip st before blur between up,
        nc_topLevelType blur = "topBlur" ->
        notListening D (nc_platform blur) (nc_nativeEventTarget blur) = false ->
        Forall (fun c => nc_topLevelType c <> "topFocus") between ->
        exists outs st',
          run D skip st (before ++ blur :: between ++ [up])
          = ((outs ++ None :: repeat None (length between) ++ [None])%list, st')
          /\ length outs = length before).
Proof.
  split.
  - intros D skip p st inst ne tgt Hlisten. unfold extractEvents. rewrite Hlisten.
    reflexivity.
  - intros D skip st before blur between up Hkind Hlisten Hbetween.
    rewrite run_app.
    set (st0 := snd (run D skip st before)).
    exists (fst (run D skip st before)). eexists.
    split; [|apply run_length].
    f_equal. cbn [run]. unfold step at 1. unfold extractEvents.
    rewrite Hlisten, Hkind. unfold react. cbn [String.eqb Ascii.eqb Bool.eqb].
    set (st1 := {| activeElement := None; activeElementInst := None;
                   lastSelection := SelNull; mouseDown := mouseDown st0 |}).
    rewrite run_app. cbn [fst snd].
    destruct (run_no_active D skip between st1 eq_refl Hbetween) as [Houts Hst2].
    rewrite Houts. cbn [run].
    destruct (step_no_active D skip (snd (run D skip st1 between)) up Hst2) as [Hup _].
    destruct (step D skip (snd (run D skip st1 between)) up) as [out st3].
    cbn in Hup. subst out. reflexivity.
Qed.

Lemma focus_out_silences_until_next_focus_witness :
  exists outs st',
    run 9 false initialState
      (Sample.pressed ++ Sample.focusOut :: Sample.selectionMoves ++ [Sample.release])
    = ((outs ++ None :: repeat None (length Sample.selectionMoves) ++ [None])%list, st')
    /\ length outs = length Sample.pressed.
Proof.
  apply (proj2 focus_out_silences_until_next_focus 9 false initialState
           Sample.pressed Sample.focusOut Sample.selectionMoves Sample.release).
  - reflexivity.
  - reflexivity.
  - repeat constructor. cbn. intros [=].
Defined.

(** C1, as stated, fails: focus-in on a text field, pointer-down, pointer-up
    with the selection the same throughout still produces one select event,
    because the focus-in cleared the stored snapshot. *)
Lemma unchanged_selection_counterexample :
  fst (run 9 false initialState Sample.clickUnchanged)
  = [ None; None;
      Some (selectEvent 2%nat (Some 10%nat) (Sample.nativeEvent "mouseup" (VNum 0))) ].
Proof. vm_compute. reflexivity. Qed.

(** C1, amended: after a focus-in on a text-editable target, a pointer-down and
    a pointer-up (each passing the listener-presence check, the target still
    being the platform's focused element at the pointer-up), exactly one
    select event is produced, at the pointer-up, targeted at the recorded
    element and its UI node, whether or not the selection changed in between,
    and the snapshot taken then is stored.  In general an attempt that passes
    the guards emits exactly when the stored snapshot is absent or
    [shallowEqual] tells it from the fresh one, storing the fresh one when it
    emits and changing nothing otherwise; on snapshots taken by [getSelection],
    [shallowEqual] is structural equality. *)
Theorem select_emitted_when_snapshot_absent_or_changed :
  (forall D skip st focusIn down up,
     nc_topLevelType focusIn = "topFocus" ->
     nc_topLevelType down = "topMouseDown" ->
     nc_topLevelType up = "topMouseUp" ->
     notListening D (nc_platform focusIn) (nc_nativeEventTarget focusIn) = false ->
     notListening D (nc_platform down) (nc_nativeEventTarget down) = false ->
     notListening D (nc_platform up) (nc_nativeEventTarget up) = false ->
     let node := targetNodeOf (nc_platform focusIn) (nc_targetInst focusIn) in
     editable (nc_platform focusIn) node = true ->
     getActiveElement (nc_platform up) = Some node ->
     run D skip st [focusIn; down; up]
     = ([ None; None;
          Some (selectEvent node (nc_targetInst focusIn) (nc_nativeEvent up)) ],
        {| activeElement := Some node;
           activeElementInst := nc_targetInst focusIn;
           lastSelection := getSelection (nc_platform up) node;
           mouseDown := false |}))
  /\ (forall p st ne tgt a,
        guardsBlock p st = false ->
        activeElement st = Some a ->
        constructSelectEvent p st ne tgt
        = if negb (truthy (lastSelection st))
             || negb (shallowEqual (lastSelection st) (getSelection p a))
          then (Some (selectEvent a (activeElementInst st) ne),
                set_lastSelection (getSelection p a) st)
          else (None, st))
  /\ (forall p a p' a',
        shallowEqual (getSelection p a) (getSelection p' a') = true
        <-> getSelection p a = getSelection p' a').
Proof.
  split; [|split].
  - intros D skip st focusIn down up Hf Hd Hu Lf Ld Lu node Hedit Hactive.
    cbn [run]. unfold step, extractEvents.
    rewrite Lf, Ld, Lu, Hf, Hd, Hu. unfold react.
    cbn [String.eqb Ascii.eqb Bool.eqb isCase existsb orb].
    fold node. unfold editable in Hedit. rewrite Hedit.
    erewrite constructSelectEvent_passing.
    + cbn. reflexivity.
    + unfold guardsBlock. cbn. rewrite Hactive.
      rewrite bool_decide_eq_true_2 by reflexivity. reflexivity.
    + reflexivity.
  - apply constructSelectEvent_passing.
  - apply shallowEqual_getSelection.
Qed.

Lemma select_emitted_when_snapshot_absent_or_changed_witness :
  run 9 false initialState Sample.clickChanged
  = ([ None; None;
       Some (selectEvent 2%nat (Some 10%nat) (Sample.nativeEvent "mouseup" (VNum 0))) ],
     {| activeElement := Some 2%nat;
        activeElementInst := Some 10%nat;
        lastSelection := SelObject [("start", VNum 1); ("end", VNum 4)];
        mouseDown := false |}).
Proof.
  apply (proj1 select_emitted_when_snapshot_absent_or_changed 9 false initialState
           (Sample.call Sample.field2 "topFocus" "focus" 10%nat)
           (Sample.call Sample.field2 "topMouseDown" "mousedown" 10%nat)
           (Sample.call (Sample.browser (Some 2%nat) 1 4 true true) "topMouseUp"
              "mouseup" 10%nat));
    reflexivity.
Defined.

(** C9, as stated, fails: the short-circuit also skips the bookkeeping.  A
    focus-in arrives while the document is not yet listening (no select
    handler mounted); a handler is then mounted and a key-up follows.  With
    the short-circuit the focus was never recorded and the key-up yields
    nothing; without it the key-up yields a select event, which the mounted
    handler would receive. *)
Lemma short_circuit_counterexample :
  deliveredAll Sample.lateMount (fst (run 9 false initialState Sample.lateMount))
  = [None; None]
  /\ deliveredAll Sample.lateMount
       (fst (run_withoutShortCircuit false initialState Sample.lateMount))
     = [ None;
         Some (selectEvent 2%nat (Some 10%nat) (Sample.nativeEvent "keyup" (VNum 0))) ]
  /\ deliveredAll Sample.lateMount (fst (run 9 false initialState Sample.lateMount))
     <> deliveredAll Sample.lateMount
          (fst (run_withoutShortCircuit false initialState Sample.lateMount)).
Proof.
  split; [vm_compute; reflexivity|]. split; [vm_compute; reflexivity|].
  vm_compute. intros [=].
Qed.

Lemma run_listening D skip calls : forall st,
  Forall (fun c => notListening D (nc_platform c) (nc_nativeEventTarget c) = false)
    calls ->
  run D skip st calls = run_withoutShortCircuit skip st calls.
Proof.
  induction calls as [|c calls IH]; intros st Hall; cbn [run run_withoutShortCircuit];
    [reflexivity|].
  inversion Hall as [|? ? Hc Hrest]; subst.
  unfold step, step_withoutShortCircuit, extractEvents. rewrite Hc.
  destruct (react skip (nc_platform c) st (nc_topLevelType c) (nc_targetInst c)
              (nc_nativeEvent c) (nc_nativeEventTarget c)) as [out st1].
  rewrite (IH st1 Hrest). reflexivity.
Qed.

Lemma run_not_listening D skip calls : forall st,
  Forall (fun c => notListening D (nc_platform c) (nc_nativeEventTarget c) = true)
    calls ->
  run D skip st calls = (repeat None (length calls), st).
Proof.
  induction calls as [|c calls IH]; intros st Hall; cbn [run]; [reflexivity|].
  inversion Hall as [|? ? Hc Hrest]; subst.
  unfold step, extractEvents. rewrite Hc, (IH st Hrest). reflexivity.
Qed.

Lemma deliveredAll_unmounted calls : forall outs outs',
  Forall (fun c => selectHandlerMounted (nc_platform c) = false) calls ->
  length outs = length calls ->
  length outs' = length calls ->
  deliveredAll calls outs = deliveredAll calls outs'.
Proof.
  induction calls as [|c calls IH]; intros outs outs' Hall Hlen Hlen';
    destruct outs as [|o outs], outs' as [|o' outs']; try discriminate;
    cbn [deliveredAll]; [reflexivity|].
  inversion Hall as [|? ? Hc Hrest]; subst.
  unfold delivered. rewrite Hc. f_equal. apply IH; auto.
Qed.

(** C9, amended: when the listener-presence check fails the plugin returns
    nothing and changes nothing; and over a sequence of native events on which
    the check gives one and the same answer throughout (a failing check
    meaning that no select handler is mounted), the plugin delivers to the
    registered listeners exactly what it would deliver without the
    short-circuit. *)
Theorem short_circuit_is_transparent_when_answer_is_stable :
  (forall D skip p st t inst ne tgt,
     notListening D p tgt = true ->
     extractEvents D skip p st t inst ne tgt = (None, st))
  /\ (forall D skip st calls answer,
        Forall (fun c => notListening D (nc_platform c) (nc_nativeEventTarget c)
                         = answer) calls ->
        Forall (fun c => notListening D (nc_platform c) (nc_nativeEventTarget c) = true ->
                         selectHandlerMounted (nc_platform c) = false) calls ->
        deliveredAll calls (fst (run D skip st calls))
        = deliveredAll calls (fst (run_withoutShortCircuit skip st calls))).
Proof.
  split.
  - intros D skip p st t inst ne tgt H. unfold extractEvents. rewrite H. reflexivity.
  - intros D skip st calls [|] Hanswer Hmounted.
    + apply deliveredAll_unmounted.
      * rewrite List.Forall_forall in *. intros c Hc. apply Hmounted; auto.
      * apply run_length.
      * apply run_withoutShortCircuit_length.
    + rewrite (run_listening D skip calls st Hanswer). reflexivity.
Qed.

Lemma short_circuit_is_transparent_when_answer_is_stable_witness :
  deliveredAll Sample.neverMounted (fst (run 9 false initialState Sample.neverMounted))
  = deliveredAll Sample.neverMounted
      (fst (run_withoutShortCircuit false initialState Sample.neverMounted)).
Proof.
  apply (proj2 short_circuit_is_transparent_when_answer_is_stable 9 false initialState
           _ true).
  - repeat constructor.
  - repeat constructor.
Defined.

End SelectTheorems.

(** * Further properties of the classifier plugin *)

Module SimpleMore.

Import SimpleEventPlugin SimpleFacts SimpleTheorems.

Lemma isCase_true_iff t cases : isCase t cases = true <-> In t cases.
Proof.
  unfold isCase. rewrite existsb_exists. split.
  - intros [x [Hin Heq]]. apply String.eqb_eq in Heq. subst. exact Hin.
  - intros Hin. exists t. split; [exact Hin|apply String.eqb_refl].
Qed.

Lemma topOf_keys : forall k,
  is_Some (topLevelEventsToDispatchConfig tables !! k) ->
  In k (map topOf (interactiveEventTypeNames ++ nonInteractiveEventTypeNames)).
Proof. exact tables_keys. Qed.

(** The kinds of the interactive names, and only they, are interactive. *)
Lemma interactive_checked :
  forallb (fun k => Bool.eqb (isInteractiveTopLevelEventType k)
                      (isCase k (map topOf interactiveEventTypeNames)))
    (map topOf (interactiveEventTypeNames ++ nonInteractiveEventTypeNames)) = true.
Proof. vm_compute. reflexivity. Qed.

(** X1: [isInteractiveTopLevelEventType] answers true exactly on the native
    kinds derived from the interactive names; on the kinds of the other list
    and on kinds without a dispatch configuration it answers false. *)
Theorem interactive_kinds_characterised :
  forall topLevelType : string,
    isInteractiveTopLevelEventType topLevelType = true
    <-> In topLevelType (map topOf interactiveEventTypeNames).
Proof.
  intros t. rewrite <- isCase_true_iff.
  destruct (topLevelEventsToDispatchConfig tables !! t) as [cfg|] eqn:Hcfg.
  - pose proof interactive_checked as Hall. rewrite forallb_forall in Hall.
    assert (Hin : In t (map topOf (interactiveEventTypeNames
                                     ++ nonInteractiveEventTypeNames))).
    { apply topOf_keys. rewrite Hcfg. eauto. }
    apply Hall, Bool.eqb_prop in Hin. rewrite Hin. reflexivity.
  - unfold isInteractiveTopLevelEventType. rewrite Hcfg.
    split; [intros [=]|]. intros Hin. exfalso.
    apply isCase_true_iff in Hin.
    assert (Hsome : forallb (fun k => bool_decide
                               (is_Some (topLevelEventsToDispatchConfig tables !! k)))
                      (map topOf interactiveEventTypeNames) = true).
    { clear. vm_compute. reflexivity. }
    rewrite forallb_forall in Hsome. apply Hsome, bool_decide_eq_true in Hin.
    destruct Hin as [x Hx]. rewrite Hx in Hcfg. inversion Hcfg.
Qed.

(** X2: the classifier returns no event in exactly three situations: the kind
    has no dispatch configuration, or it is a key-press whose decoded
    character code is 0, or it is a click whose button is 2.  Every other
    native event of a configured kind yields an event. *)
Theorem extraction_drops_exactly :
  forall (dev : bool) (getEventCharCode : NativeEvent -> Z) (topLevelType : string)
         (targetInst : option Inst) (nativeEvent : NativeEvent)
         (nativeEventTarget : DomObject),
    fst (extractEvents dev getEventCharCode topLevelType targetInst nativeEvent
           nativeEventTarget) = None
    <-> (topLevelEventsToDispatchConfig tables !! topLevelType = None
         \/ (topLevelType = "topKeyPress" /\ getEventCharCode nativeEvent = 0)
         \/ (topLevelType = "topClick" /\ ne_button nativeEvent = VNum 2)).
Proof.
  intros dev gcc t inst ne tgt. unfold extractEvents.
  destruct (topLevelEventsToDispatchConfig tables !! t) as [cfg|];
    [|cbn; split; auto].
  cbv zeta.
  destruct (String.eqb_spec t "topKeyPress") as [->|Hkp].
  { destruct (Z.eqb_spec (gcc ne) 0) as [Hz|Hz]; cbn [fst].
    - split; auto.
    - split; [intros [=]|]. intros [[=]|[[_ H]|[[=] _]]]. contradiction. }
  destruct (String.eqb_spec t "topClick") as [->|Hck].
  { cbn [isCase existsb String.eqb Ascii.eqb Bool.eqb orb]. unfold strictEq.
    destruct (bool_decide_reflect (ne_button ne = VNum 2)) as [Hb|Hb]; cbn [fst].
    - split; auto.
    - split; [intros [=]|]. intros [[=]|[[[=] _]|[_ H]]]. contradiction. }
  split.
  - repeat lazymatch goal with
           | |- fst (if ?b then _ else _) = _ -> _ => destruct b
           end; cbn [fst]; intros [=].
  - intros [[=]|[[H _]|[H _]]]; contradiction.
Qed.

(** X3: the classifier never prints its "unhandled event type" warning, in a
    development build either: a kind without a dispatch configuration returns
    before the [switch], and every configured kind without a [case] of its
    own is on [knownHTMLTopLevelTypes]. *)
Theorem classifier_never_warns :
  forall (dev : bool) (getEventCharCode : NativeEvent -> Z) (topLevelType : string)
         (targetInst : option Inst) (nativeEvent : NativeEvent)
         (nativeEventTarget : DomObject),
    snd (extractEvents dev getEventCharCode topLevelType targetInst nativeEvent
           nativeEventTarget) = [].
Proof.
  intros dev gcc t inst ne tgt. unfold extractEvents.
  destruct (topLevelEventsToDispatchConfig tables !! t) as [cfg|] eqn:Hcfg;
    [|reflexivity].
  cbv zeta.
  repeat lazymatch goal with
         | |- snd (if ?b then _ else _) = _ =>
             let E := fresh "E" in destruct b eqn:E; try reflexivity
         end.
  cbn [snd]. destruct dev; [|reflexivity].
  apply declared_default_kinds_are_known; [rewrite Hcfg; eauto|].
  unfold isCase at 1. unfold switchCases. cbn [existsb].
  repeat match goal with
         | H : isCase _ _ = false |- _ => split_cases H; clear H
         end.
  repeat match goal with
         | H : String.eqb _ _ = false |- _ => rewrite H; clear H
         end.
  reflexivity.
Qed.

(** X4: an event returned by the classifier carries the dispatch configuration
    registered for the kind of the native event, whose only dependency is
    that very kind; it keeps the target instance and the native event it was
    given, takes its type from the native event and its target from the native
    target. *)
Theorem extracted_event_fields :
  forall dev gcc topLevelType targetInst nativeEvent nativeEventTarget ev,
    fst (extractEvents dev gcc topLevelType targetInst nativeEvent nativeEventTarget)
    = Some ev ->
    topLevelEventsToDispatchConfig tables !! topLevelType = Some (ev_dispatchConfig ev)
    /\ dependencies (ev_dispatchConfig ev) = [topLevelType]
    /\ ev_targetInst ev = targetInst
    /\ ev_nativeEvent ev = nativeEvent
    /\ ev_type ev = ne_type nativeEvent
    /\ ev_target ev = VRef nativeEventTarget.
Proof.
  intros dev gcc t inst ne tgt ev Hev.
  apply extractEvents_constructs in Hev as (shape & cfg & Hcfg & ->).
  destruct wellFormed_tables as [_ Htop].
  destruct (map_Forall_lookup_1 _ _ _ _ Htop Hcfg) as (c & rest & b & Ht & Hc).
  cbn. split; [exact Hcfg|]. subst cfg t. repeat split.
Qed.

Lemma extracted_event_fields_witness :
  topLevelEventsToDispatchConfig tables !! "topSubmit"
  = Some (ev_dispatchConfig
            (construct SyntheticEvent (configOf "s" "ubmit" true) (Some 12%nat)
               (Sample.nativeEvent "submit" (VNum 0)) 4%nat))
  /\ dependencies (ev_dispatchConfig
                     (construct SyntheticEvent (configOf "s" "ubmit" true) (Some 12%nat)
                        (Sample.nativeEvent "submit" (VNum 0)) 4%nat)) = ["topSubmit"]
  /\ ev_targetInst (construct SyntheticEvent (configOf "s" "ubmit" true) (Some 12%nat)
                      (Sample.nativeEvent "submit" (VNum 0)) 4%nat) = Some 12%nat
  /\ ev_nativeEvent (construct SyntheticEvent (configOf "s" "ubmit" true) (Some 12%nat)
                       (Sample.nativeEvent "submit" (VNum 0)) 4%nat)
     = Sample.nativeEvent "submit" (VNum 0)
  /\ ev_type (construct SyntheticEvent (configOf "s" "ubmit" true) (Some 12%nat)
                (Sample.nativeEvent "submit" (VNum 0)) 4%nat)
     = ne_type (Sample.nativeEvent "submit" (VNum 0))
  /\ ev_target (construct SyntheticEvent (configOf "s" "ubmit" true) (Some 12%nat)
                  (Sample.nativeEvent "submit" (VNum 0)) 4%nat) = VRef 4%nat.
Proof.
  apply (extracted_event_fields true Sample.charCodeOf "topSubmit" (Some 12%nat)
           (Sample.nativeEvent "submit" (VNum 0)) 4%nat).
  vm_compute. reflexivity.
Defined.

(** X5: which synthetic-event shape and which dispatch configuration an
    extracted event gets depends on the native kind alone, not on the build,
    the character decoder, the payload or the target. *)
Theorem shape_depends_on_kind_only :
  forall topLevelType dev1 gcc1 inst1 ne1 tgt1 ev1 dev2 gcc2 inst2 ne2 tgt2 ev2,
    fst (extractEvents dev1 gcc1 topLevelType inst1 ne1 tgt1) = Some ev1 ->
    fst (extractEvents dev2 gcc2 topLevelType inst2 ne2 tgt2) = Some ev2 ->
    ev_shape ev1 = ev_shape ev2
    /\ ev_dispatchConfig ev1 = ev_dispatchConfig ev2.
Proof.
  intros t dev1 gcc1 inst1 ne1 tgt1 ev1 dev2 gcc2 inst2 ne2 tgt2 ev2.
  unfold extractEvents.
  destruct (topLevelEventsToDispatchConfig tables !! t) as [cfg|]; [|intros [=]].
  cbv zeta.
  repeat lazymatch goal with
         | |- fst (if ?b then _ else _) = _ -> _ => destruct b
         | |- fst (Some _, _) = _ -> _ => cbn [fst]; intros [= <-]
         | |- fst (None, _) = _ -> _ => cbn [fst]; intros [=]
         | |- Some _ = Some _ -> _ => intros [= <-]
         | |- None = Some _ -> _ => intros [=]
         end;
    split; reflexivity.
Qed.

Lemma shape_depends_on_kind_only_witness :
  ev_shape (construct SyntheticMouseEvent (configOf "c" "lick" true) (Some 12%nat)
              (Sample.nativeEvent "click" (VNum 0)) 4%nat)
  = ev_shape (construct SyntheticMouseEvent (configOf "c" "lick" true) (Some 10%nat)
                (Sample.nativeEvent "click" (VNum 1)) 2%nat)
  /\ ev_dispatchConfig
       (construct SyntheticMouseEvent (configOf "c" "lick" true) (Some 12%nat)
          (Sample.nativeEvent "click" (VNum 0)) 4%nat)
     = ev_dispatchConfig
         (construct SyntheticMouseEvent (configOf "c" "lick" true) (Some 10%nat)
            (Sample.nativeEvent "click" (VNum 1)) 2%nat).
Proof.
  apply (shape_depends_on_kind_only "topClick"
           true Sample.charCodeOf (Some 12%nat) (Sample.nativeEvent "click" (VNum 0)) 4%nat _
           false (fun _ => 7) (Some 10%nat) (Sample.nativeEvent "click" (VNum 1)) 2%nat _);
    vm_compute; reflexivity.
Defined.

(** The keys of [eventTypes] are the listed names. *)
Lemma forEachAdd_names names b : forall tb tb' (seen : list string),
  (forall k, is_Some (eventTypes tb !! k) -> In k seen) ->
  forEachAdd names b tb = Some tb' ->
  forall k, is_Some (eventTypes tb' !! k) -> In k (seen ++ names).
Proof.
  induction names as [|n names IH]; intros tb tb' seen Hseen Hrun k Hk; cbn in Hrun.
  - injection Hrun as <-. rewrite app_nil_r. auto.
  - destruct n as [|c rest]; [inversion Hrun|]. cbn in Hrun.
    match type of Hrun with forEachAdd _ _ ?tb1 = _ => specialize (IH tb1) end.
    specialize (IH tb' (app seen [String c rest])).
    change (?x :: ?l) with ([x] ++ l)%list. rewrite app_assoc.
    eapply IH; [|exact Hrun|exact Hk].
    intros k' Hk'. cbn [eventTypes] in Hk'.
    apply in_or_app. rewrite lookup_insert in Hk'. case_decide.
    + right. left. assumption.
    + left. auto.
Qed.

Lemma eventTypes_keys : forall k,
  is_Some (eventTypes tables !! k) ->
  In k (interactiveEventTypeNames ++ nonInteractiveEventTypeNames).
Proof.
  intros k Hk. destruct tables_built as [tb1 [H1 H2]].
  eapply (forEachAdd_names _ _ tb1 tables); [|exact H2|exact Hk].
  intros k1 Hk1.
  eapply (forEachAdd_names _ _ emptyTables tb1 []); [|exact H1|exact Hk1].
  intros k0 [x Hx]. cbn in Hx. rewrite lookup_empty in Hx. inversion Hx.
Qed.

Lemma tables_agree_checked :
  forallb (fun n => bool_decide (eventTypes tables !! n
                                 = topLevelEventsToDispatchConfig tables !! topOf n))
    (interactiveEventTypeNames ++ nonInteractiveEventTypeNames) = true.
Proof. vm_compute. reflexivity. Qed.



(** X7: filling the tables fails (the JavaScript throws on [event[0]] being
    [undefined]) exactly when one of the names is the empty string; with
    non-empty names it succeeds from any tables. *)
Theorem forEachAdd_fails_on_empty_name :
  forall (names : list string) (b : bool) (tb : Tables),
    forEachAdd names b tb = None <-> In EmptyString names.
Proof.
  induction names as [|n names IH]; intros b tb; cbn [forEachAdd].
  - split; [intros [=]|intros []].
  - destruct n as [|c rest]; cbn [addEventTypeNameToConfig].
    + split; [left; reflexivity|reflexivity].
    + rewrite IH. split; [right; assumption|]. intros [[=]|H]. exact H.
Qed.

End SimpleMore.

(** * Further properties of the selection plugin *)

Module SelectMore.

Import SelectEventPlugin SelectFacts.

Lemma guardsBlock_false p st :
  guardsBlock p st = false ->
  mouseDown st = false
  /\ exists a, activeElement st = Some a /\ getActiveElement p = Some a.
Proof.
  unfold guardsBlock. destruct (mouseDown st); [intros [=]|]. cbn [orb].
  destruct (activeElement st) as [a|]; [|intros [=]].
  rewrite negb_false_iff, bool_decide_eq_true. eauto.
Qed.

Lemma constructSelectEvent_emits p st ne tgt ev :
  fst (constructSelectEvent p st ne tgt) = Some ev ->
  mouseDown st = false
  /\ exists a, activeElement st = Some a /\ getActiveElement p = Some a
               /\ ev = selectEvent a (activeElementInst st) ne.
Proof.
  destruct (guardsBlock p st) eqn:Hg.
  - rewrite constructSelectEvent_blocked by exact Hg. intros [=].
  - destruct (guardsBlock_false p st Hg) as [Hm (a & Ha & Hp)].
    rewrite (constructSelectEvent_passing p st ne tgt a Hg Ha).
    match goal with |- context [if ?b then _ else _] => destruct b end;
      cbn [fst]; intros [= <-]. eauto.
Qed.

Lemma react_emits skip p st t inst ne tgt ev :
  fst (react skip p st t inst ne tgt) = Some ev ->
  In t pollingKinds
  /\ exists a, activeElement st = Some a /\ getActiveElement p = Some a
               /\ ev = selectEvent a (activeElementInst st) ne.
Proof.
  unfold react, isCase, pollingKinds. cbn [existsb].
  destruct (String.eqb_spec t "topFocus") as [->|_].
  { match goal with |- context [if ?b then _ else _] => destruct b end; intros [=]. }
  destruct (String.eqb_spec t "topBlur") as [->|_]; [intros [=]|].
  destruct (String.eqb_spec t "topMouseDown") as [->|_]; [intros [=]|].
  destruct (String.eqb_spec t "topContextMenu") as [->|_].
  { cbn [orb]. intros H. apply constructSelectEvent_emits in H as [_ H].
    split; [cbn; auto|exact H]. }
  destruct (String.eqb_spec t "topMouseUp") as [->|_].
  { cbn [orb]. intros H. apply constructSelectEvent_emits in H as [_ H].
    split; [cbn; auto|exact H]. }
  cbn [orb].
  destruct (String.eqb_spec t "topSelectionChange") as [->|_].
  { destruct skip; [intros [=]|]. intros H.
    apply constructSelectEvent_emits in H as [_ H]. split; [cbn; auto|exact H]. }
  destruct (String.eqb_spec t "topKeyDown") as [->|_].
  { cbn [orb]. intros H. apply constructSelectEvent_emits in H as [_ H].
    split; [cbn; auto|exact H]. }
  destruct (String.eqb_spec t "topKeyUp") as [->|_].
  { cbn [orb]. intros H. apply constructSelectEvent_emits in H as [_ H].
    split; [cbn; tauto|exact H]. }
  cbn [orb]. intros [=].
Qed.

(** X8: whatever the state and the sequence of native events, the plugin
    emits only on its five polling kinds, and every event it emits is the
    select event targeted at the element that the platform reports as
    focused at that very moment, carrying the native event of that call. *)
Theorem emitted_events_target_the_focused_element :
  forall D skip calls st,
    Forall2 (fun c out =>
               forall ev, out = Some ev ->
                 In (nc_topLevelType c) pollingKinds
                 /\ exists a inst,
                      getActiveElement (nc_platform c) = Some a
                      /\ ev = selectEvent a inst (nc_nativeEvent c))
      calls (fst (run D skip st calls)).
Proof.
  intros D skip calls. induction calls as [|c calls IH]; intros st; cbn [run].
  - constructor.
  - destruct (step D skip st c) as [out st1] eqn:Hstep.
    specialize (IH st1). destruct (run D skip st1 calls) as [outs st2].
    cbn [fst] in *. constructor; [|exact IH].
    intros ev ->. unfold step, extractEvents in Hstep.
    destruct (notListening D (nc_platform c) (nc_nativeEventTarget c));
      [inversion Hstep|].
    assert (Hfst : fst (react skip (nc_platform c) st (nc_topLevelType c)
                          (nc_targetInst c) (nc_nativeEvent c)
                          (nc_nativeEventTarget c)) = Some ev)
      by (rewrite Hstep; reflexivity).
    apply react_emits in Hfst as [Hkind (a & _ & Hp & ->)]. eauto.
Qed.

Lemma coherent_constructSelectEvent p st ne tgt :
  coherent st -> coherent (snd (constructSelectEvent p st ne tgt)).
Proof.
  intros Hc. unfold constructSelectEvent.
  destruct (guardsBlock p st); [exact Hc|].
  destruct (activeElement st) eqn:Ha; [|exact Hc].
  match goal with |- context [if ?b then _ else _] => destruct b end; [|exact Hc].
  unfold coherent. cbn. rewrite Ha. intros [=].
Qed.

Lemma coherent_set_mouseDown b st : coherent st -> coherent (set_mouseDown b st).
Proof. unfold coherent. cbn. auto. Qed.

Lemma coherent_step D skip st c : coherent st -> coherent (snd (step D skip st c)).
Proof.
  intros Hc. unfold step, extractEvents.
  destruct (notListening D (nc_platform c) (nc_nativeEventTarget c)); [exact Hc|].
  unfold react.
  repeat match goal with
         | |- context [if String.eqb ?t ?k then _ else _] => destruct (String.eqb t k)
         | |- context [if isCase ?t ?k then _ else _] => destruct (isCase t k)
         | |- context [if skip then _ else _] => destruct skip
         | |- context [if ?b || ?b' then _ else _] => destruct (b || b')
         end;
    try exact Hc;
    try (apply coherent_constructSelectEvent; try apply coherent_set_mouseDown; exact Hc);
    try (apply coherent_set_mouseDown; exact Hc);
    unfold coherent; cbn; solve [intros [=] | auto].
Qed.

(** X9: starting from the initial module state, after any sequence of native
    events, an instance or a selection snapshot is held only while a focused
    element is recorded: when [activeElement] is null, [activeElementInst] is
    null and [lastSelection] is null. *)
Theorem state_stays_coherent :
  forall D skip calls, coherent (snd (run D skip initialState calls)).
Proof.
  intros D skip calls.
  assert (H : forall st, coherent st -> coherent (snd (run D skip st calls))).
  { induction calls as [|c calls IH]; intros st Hc; cbn [run]; [exact Hc|].
    pose proof (coherent_step D skip st c Hc) as Hc1.
    destruct (step D skip st c) as [out st1]. cbn [snd] in Hc1.
    specialize (IH st1 Hc1). destruct (run D skip st1 calls). exact IH. }
  apply H. unfold coherent. cbn. auto.
Qed.

Lemma shallowEqual_getSelection_refl p a :
  shallowEqual (getSelection p a) (getSelection p a) = true.
Proof. apply shallowEqual_getSelection. reflexivity. Qed.

(** The state an attempt leaves behind makes the same attempt silent. *)
Lemma attempt_settles p st ne tgt ne' tgt' :
  (forall a, activeElement st = Some a -> truthy (getSelection p a) = true) ->
  fst (constructSelectEvent p (snd (constructSelectEvent p st ne tgt)) ne' tgt') = None.
Proof.
  intros Htruthy. destruct (guardsBlock p st) eqn:Hg.
  - rewrite (constructSelectEvent_blocked p st ne tgt Hg). cbn [snd].
    rewrite constructSelectEvent_blocked by exact Hg. reflexivity.
  - destruct (guardsBlock_false p st Hg) as [Hm (a & Ha & Hp)].
    rewrite (constructSelectEvent_passing p st ne tgt a Hg Ha).
    destruct (negb (truthy (lastSelection st))
              || negb (shallowEqual (lastSelection st) (getSelection p a))) eqn:Hcmp;
      cbn [snd].
    + rewrite (constructSelectEvent_passing p _ ne' tgt' a); [|exact Hg|exact Ha].
      cbn [lastSelection set_lastSelection].
      rewrite (Htruthy a Ha), shallowEqual_getSelection_refl. reflexivity.
    + rewrite (constructSelectEvent_passing p st ne' tgt' a Hg Ha), Hcmp. reflexivity.
Qed.

(** X10: polling twice without a change emits at most once.  After a key-down,
    key-up, pointer-up or context-menu that passed the listener check, a
    following key-down, key-up or selection-change in the same platform state
    yields no event, provided the platform can take a snapshot of the recorded
    element at all (a held key fires many key-downs but one select). *)
Theorem repeated_poll_is_silent :
  forall D skip p st t1 inst1 ne1 tgt1 t2 inst2 ne2 tgt2,
    In t1 ["topKeyDown"; "topKeyUp"; "topMouseUp"; "topContextMenu"] ->
    In t2 ["topKeyDown"; "topKeyUp"; "topSelectionChange"] ->
    notListening D p tgt1 = false ->
    (forall a, activeElement st = Some a -> truthy (getSelection p a) = true) ->
    fst (extractEvents D skip p
           (snd (extractEvents D skip p st t1 inst1 ne1 tgt1)) t2 inst2 ne2 tgt2)
    = None.
Proof.
  intros D skip p st t1 inst1 ne1 tgt1 t2 inst2 ne2 tgt2 Ht1 Ht2 Hl Htruthy.
  unfold extractEvents at 2. rewrite Hl.
  unfold extractEvents. destruct (notListening D p tgt2); [reflexivity|].
  assert (Hsecond : forall st0,
             (forall a, activeElement st0 = Some a -> truthy (getSelection p a) = true) ->
             fst (react skip p (snd (constructSelectEvent p st0 ne1 tgt1))
                    t2 inst2 ne2 tgt2) = None).
  { intros st0 H0. unfold react. cbn in Ht2.
    destruct Ht2 as [<-|[<-|[<-|[]]]]; cbn; try destruct skip;
      try reflexivity; apply attempt_settles; exact H0. }
  unfold react at 2. cbn in Ht1.
  destruct Ht1 as [<-|[<-|[<-|[<-|[]]]]]; cbn; apply Hsecond; exact Htruthy.
Qed.

Lemma repeated_poll_is_silent_witness :
  fst (extractEvents 9 false Sample.field2
         (snd (extractEvents 9 false Sample.field2 Sample.focused2 "topKeyDown"
                 (Some 10%nat) (Sample.nativeEvent "keydown" (VNum 0)) 2%nat))
         "topKeyDown" (Some 10%nat) (Sample.nativeEvent "keydown" (VNum 0)) 2%nat)
  = None.
Proof.
  apply repeated_poll_is_silent.
  - left. reflexivity.
  - left. reflexivity.
  - reflexivity.
  - intros a [= <-]. reflexivity.
Defined.

(** X11: where no snapshot can be taken (the recorded element has no usable
    [selectionStart] and [window.getSelection] does not exist),
    [getSelection] returns [undefined], which never compares as unchanged:
    every key-down and key-up that passes the guards emits a select event,
    however often it is repeated. *)
Theorem every_poll_emits_without_selection_api :
  forall D skip calls st a,
    activeElement st = Some a ->
    mouseDown st = false ->
    Forall (fun c =>
              In (nc_topLevelType c) ["topKeyDown"; "topKeyUp"]
              /\ notListening D (nc_platform c) (nc_nativeEventTarget c) = false
              /\ getActiveElement (nc_platform c) = Some a
              /\ has_selectionStart (nc_platform c) a
                 && hasSelectionCapabilities (nc_platform c) a = false
              /\ window_getSelection (nc_platform c) = None) calls ->
    fst (run D skip st calls)
    = map (fun c => Some (selectEvent a (activeElementInst st) (nc_nativeEvent c))) calls.
Proof.
  intros D skip calls. induction calls as [|c calls IH]; intros st a Ha Hm Hall;
    cbn [run map]; [reflexivity|].
  inversion Hall as [|? ? (Hkind & Hl & Hp & Hsel & Hwin) Hrest]; subst.
  assert (Hg : guardsBlock (nc_platform c) st = false).
  { unfold guardsBlock. rewrite Hm, Ha, Hp.
    rewrite bool_decide_eq_true_2 by reflexivity. reflexivity. }
  assert (Hcur : getSelection (nc_platform c) a = SelUndefined).
  { unfold getSelection. rewrite Hsel, Hwin. reflexivity. }
  assert (Hstep : step D skip st c
                  = (Some (selectEvent a (activeElementInst st) (nc_nativeEvent c)),
                     set_lastSelection SelUndefined st)).
  { unfold step, extractEvents. rewrite Hl. unfold react. cbn in Hkind.
    destruct Hkind as [<-|[<-|[]]]; cbn;
      rewrite (constructSelectEvent_passing _ st _ _ a Hg Ha), Hcur;
      destruct (lastSelection st); reflexivity. }
  rewrite Hstep.
  specialize (IH (set_lastSelection SelUndefined st) a Ha Hm Hrest).
  destruct (run D skip (set_lastSelection SelUndefined st) calls) as [outs st2].
  cbn [fst] in *. rewrite IH. reflexivity.
Qed.

Lemma every_poll_emits_without_selection_api_witness :
  fst (run 9 false Sample.focused2 Sample.keyHeld)
  = map (fun c => Some (selectEvent 2%nat (activeElementInst Sample.focused2)
                          (nc_nativeEvent c))) Sample.keyHeld.
Proof.
  apply every_poll_emits_without_selection_api.
  - reflexivity.
  - reflexivity.
  - unfold Sample.keyHeld.
    repeat match goal with |- Forall _ _ => constructor end;
      (split; [cbn; first [left; reflexivity | right; left; reflexivity]
              | repeat split; reflexivity]).
Defined.

(** X12: while the pointer is pressed nothing is emitted: from a state with
    the pressed flag set, any sequence of native events without a pointer-up
    or context-menu yields no event at all and leaves the flag set,
    whatever happens to focus and selection meanwhile. *)
Theorem silent_while_pressed :
  forall D skip calls st,
    mouseDown st = true ->
    Forall (fun c => ~ In (nc_topLevelType c) ["topContextMenu"; "topMouseUp"]) calls ->
    fst (run D skip st calls) = repeat None (length calls)
    /\ mouseDown (snd (run D skip st calls)) = true.
Proof.
  intros D skip calls. induction calls as [|c calls IH]; intros st Hm Hall;
    cbn [run]; [cbn; auto|].
  inversion Hall as [|? ? Hkind Hrest]; subst.
  assert (Hstep : fst (step D skip st c) = None
                  /\ mouseDown (snd (step D skip st c)) = true).
  { unfold step, extractEvents.
    destruct (notListening D (nc_platform c) (nc_nativeEventTarget c)); [cbn; auto|].
    unfold react.
    assert (Hblocked : forall ne tgt,
               constructSelectEvent (nc_platform c) st ne tgt = (None, st)).
    { intros. apply constructSelectEvent_blocked. unfold guardsBlock.
      rewrite Hm. reflexivity. }
    destruct (isCase (nc_topLevelType c) ["topContextMenu"; "topMouseUp"]) eqn:Hup.
    { exfalso. apply Hkind. unfold isCase in Hup. apply existsb_exists in Hup.
      destruct Hup as [x [Hin Heq]]. apply String.eqb_eq in Heq. subst. exact Hin. }
    repeat match goal with
           | |- context [if String.eqb ?t ?k then _ else _] => destruct (String.eqb t k)
           | |- context [if isCase ?t ?k then _ else _] => destruct (isCase t k)
           | |- context [if skip then _ else _] => destruct skip
           | |- context [if ?b || ?b' then _ else _] => destruct (b || b')
           end;
      rewrite ?Hblocked; cbn; auto. }
  destruct (step D skip st c) as [out st1]. cbn [fst snd] in Hstep.
  destruct Hstep as [-> Hm1].
  specialize (IH st1 Hm1 Hrest). destruct (run D skip st1 calls) as [outs st2].
  cbn [fst snd length repeat] in *. destruct IH as [-> IH2]. auto.
Qed.

Lemma silent_while_pressed_witness :
  fst (run 9 false Sample.dragging2 Sample.keysWhileDragging)
  = repeat None (length Sample.keysWhileDragging)
  /\ mouseDown (snd (run 9 false Sample.dragging2 Sample.keysWhileDragging)) = true.
Proof.
  apply silent_while_pressed.
  - reflexivity.
  - repeat constructor; cbn; intros [H|[H|[]]]; inversion H.
Defined.

(** X13: the plugin reacts to nothing but its declared dependencies: a native
    event of a kind that is not listed in the [dependencies] of [select]
    yields no event and leaves all four module variables untouched. *)
Theorem undeclared_kinds_are_ignored :
  forall D skip p st t inst ne tgt,
    ~ In t (dependencies eventTypes_select) ->
    extractEvents D skip p st t inst ne tgt = (None, st).
Proof.
  intros D skip p st t inst ne tgt Hnot. unfold extractEvents.
  destruct (notListening D p tgt); [reflexivity|].
  assert (Hne : forall k, In k (dependencies eventTypes_select) -> String.eqb t k = false).
  { intros k Hk. apply String.eqb_neq. intros ->. exact (Hnot Hk). }
  unfold react, isCase. cbn [existsb].
  rewrite !Hne by (cbn; tauto). reflexivity.
Qed.

Lemma undeclared_kinds_are_ignored_witness :
  extractEvents 9 false Sample.field2 Sample.focused2 "topClick" (Some 10%nat)
    (Sample.nativeEvent "click" (VNum 0)) 2%nat = (None, Sample.focused2).
Proof.
  apply undeclared_kinds_are_ignored.
  cbn. intros H. repeat (destruct H as [H|H]; [inversion H|]). exact H.
Defined.

End SelectMore.

(** * Properties of the test utilities *)

Module TestUtilsFacts.

Import ReactTestUtils.

Lemma sameButReturn_refl f : sameButReturn f f.
Proof. repeat split. Qed.

Lemma sameButReturn_trans f g k :
  sameButReturn f g -> sameButReturn g k -> sameButReturn f k.
Proof.
  intros (A1 & A2 & A3 & A4) (B1 & B2 & B3 & B4).
  repeat split; congruence.
Qed.

Lemma heapShape_refl h : heapShape h h.
Proof. intros x. destruct (h !! x); [apply sameButReturn_refl|exact I]. Qed.

Lemma heapShape_trans h1 h2 h3 :
  heapShape h1 h2 -> heapShape h2 h3 -> heapShape h1 h3.
Proof.
  intros H12 H23 x. specialize (H12 x). specialize (H23 x).
  destruct (h1 !! x), (h2 !! x), (h3 !! x); try contradiction; auto.
  eapply sameButReturn_trans; eauto.
Qed.

Lemma heapShape_set_return h c fc r :
  h !! c = Some fc -> heapShape h (<[c := set_return r fc]> h).
Proof.
  intros Hc x. destruct (decide (c = x)) as [<-|Hne].
  - rewrite lookup_insert_eq, Hc. repeat split.
  - rewrite lookup_insert_ne by exact Hne. destruct (h !! x);
      [apply sameButReturn_refl|exact I].
Qed.

Lemma heapShape_lookup h h' x f :
  heapShape h h' -> h !! x = Some f ->
  exists f', h' !! x = Some f' /\ sameButReturn f f'.
Proof.
  intros Hs Hx. specialize (Hs x). rewrite Hx in Hs.
  destruct (h' !! x) as [f'|]; [eauto|contradiction].
Qed.

Lemma layout_shape h h' f : forall ptr,
  heapShape h h' -> layout h f ptr -> layout h' f ptr.
Proof.
  induction f as [|x ch IHch sib IHsib]; intros ptr Hs Hl; cbn [layout] in *;
    [exact Hl|].
  destruct Hl as [-> (fb & Hx & Hch & Hsib)]. split; [reflexivity|].
  destruct (heapShape_lookup h h' x fb Hs Hx) as (fb' & Hx' & _ & _ & Hc & Hsb).
  exists fb'. split; [exact Hx'|]. rewrite <- Hc, <- Hsb. auto.
Qed.

Lemma parented_agree h h' f : forall p,
  (forall x, In x (ids f) -> h' !! x = h !! x) ->
  parented h f p -> parented h' f p.
Proof.
  induction f as [|x ch IHch sib IHsib]; intros p Hag Hp; cbn [parented ids] in *;
    [exact I|].
  destruct Hp as [(fb & Hx & Hr) [Hch Hsib]]. split; [|split].
  - exists fb. rewrite Hag by (left; reflexivity). auto.
  - apply IHch; [|exact Hch]. intros y Hy. apply Hag. right.
    apply in_or_app. left. exact Hy.
  - apply IHsib; [|exact Hsib]. intros y Hy. apply Hag. right.
    apply in_or_app. right. exact Hy.
Qed.

Section Walk.

Variables ClassComponent FunctionalComponent HostComponent HostText : Z.
Variable test : option PublicInst -> bool.

Local Abbreviation walk :=
  (walk ClassComponent FunctionalComponent HostComponent HostText test).
Local Abbreviation pushed :=
  (pushed ClassComponent FunctionalComponent HostComponent HostText test).
Local Abbreviation found :=
  (found ClassComponent FunctionalComponent HostComponent HostText test).

Lemma pushed_shape f f' : sameButReturn f f' -> pushed f = pushed f'.
Proof.
  intros (Ht & Hs & _ & _). unfold ReactTestUtils.pushed, isInspected.
  rewrite Ht, Hs. reflexivity.
Qed.

Lemma found_shape h h' nodes : heapShape h h' -> found h nodes = found h' nodes.
Proof.
  intros Hs. unfold ReactTestUtils.found. induction nodes as [|x nodes IH];
    cbn [flat_map]; [reflexivity|].
  rewrite IH. f_equal. specialize (Hs x).
  destruct (h !! x), (h' !! x); try contradiction; [|reflexivity].
  apply pushed_shape. exact Hs.
Qed.

Lemma found_app h l1 l2 : found h (l1 ++ l2) = (found h l1 ++ found h l2)%list.
Proof. unfold ReactTestUtils.found. apply flat_map_app. Qed.

Lemma found_cons h x f l :
  h !! x = Some f -> found h (x :: l) = (pushed f ++ found h l)%list.
Proof. intros Hx. unfold ReactTestUtils.found. cbn [flat_map]. rewrite Hx. reflexivity. Qed.

Lemma walk_at_child m h cp node f c fc ret :
  h !! node = Some f -> child f = Some c -> h !! c = Some fc ->
  walk (S m) h cp (AtNode node) ret
  = walk m (<[c := set_return (Some node) fc]> h) cp (AtNode c) (ret ++ pushed f).
Proof. intros Hn Hc Hfc. cbn [ReactTestUtils.walk]. rewrite Hn, Hc, Hfc. reflexivity. Qed.

Lemma walk_at_leaf m h cp node f ret :
  h !! node = Some f -> child f = None -> node <> cp ->
  walk (S m) h cp (AtNode node) ret = walk m h cp (Climbing node) (ret ++ pushed f).
Proof.
  intros Hn Hc Hne. cbn [ReactTestUtils.walk]. rewrite Hn, Hc.
  destruct (Nat.eqb_spec node cp); [contradiction|reflexivity].
Qed.

Lemma walk_at_childless_root m h cp f ret :
  h !! cp = Some f -> child f = None ->
  walk (S m) h cp (AtNode cp) ret = Value ((ret ++ pushed f)%list, h).
Proof.
  intros Hn Hc. cbn [ReactTestUtils.walk]. rewrite Hn, Hc, Nat.eqb_refl. reflexivity.
Qed.

Lemma walk_climb_up m h cp node f r ret :
  h !! node = Some f -> sibling f = None -> return_ f = Some r -> r <> cp ->
  walk (S m) h cp (Climbing node) ret = walk m h cp (Climbing r) ret.
Proof.
  intros Hn Hs Hr Hne. cbn [ReactTestUtils.walk]. rewrite Hn, Hs, Hr.
  destruct (Nat.eqb_spec r cp); [contradiction|reflexivity].
Qed.

Lemma walk_climb_done m h cp node f ret :
  h !! node = Some f -> sibling f = None -> return_ f = Some cp ->
  walk (S m) h cp (Climbing node) ret = Value (ret, h).
Proof.
  intros Hn Hs Hr. cbn [ReactTestUtils.walk]. rewrite Hn, Hs, Hr, Nat.eqb_refl.
  reflexivity.
Qed.

Lemma walk_climb_sibling m h cp node f s fs ret :
  h !! node = Some f -> sibling f = Some s -> h !! s = Some fs ->
  walk (S m) h cp (Climbing node) ret
  = walk m (<[s := set_return (return_ f) fs]> h) cp (AtNode s) ret.
Proof. intros Hn Hs Hfs. cbn [ReactTestUtils.walk]. rewrite Hn, Hs, Hfs. reflexivity. Qed.

(** The traversal of a forest: entered at its first root [c], whose [return]
    already points to the parent [p], the loop visits the forest in document
    order and arrives at the head of the inner loop on the last root, having
    set every [return] pointer inside the forest. *)
Lemma walk_forest f : forall h c p cp ret,
  layout h f (Some c) ->
  NoDup (ids f) ->
  ~ In cp (ids f) ->
  (exists fc, h !! c = Some fc /\ return_ fc = Some p) ->
  exists n h' last,
    (forall m, walk (n + m) h cp (AtNode c) ret
               = walk m h' cp (Climbing last) (ret ++ found h (ids f)))
    /\ heapShape h h'
    /\ (forall x, ~ In x (ids f) -> h' !! x = h !! x)
    /\ (exists fl, h' !! last = Some fl /\ sibling fl = None /\ return_ fl = Some p)
    /\ parented h' f p.
Proof.
  induction f as [|x ch IHch sib IHsib]; intros h c p cp ret Hlay Hnd Hcp Hret.
  { cbn in Hlay. inversion Hlay. }
  cbn [layout ids] in *.
  destruct Hlay as [Hc (fb & Hx & Hlch & Hlsib)]. injection Hc as <-.
  destruct Hret as (fc & Hx' & Hrp).
  rewrite Hx in Hx'. injection Hx' as <-.
  apply NoDup_cons in Hnd as [Hc_notin Hnd].
  apply NoDup_app in Hnd as (Hnd_ch & Hdisj & Hnd_sib).
  assert (Hc_ch : ~ In c (ids ch)).
  { intros H. apply Hc_notin, elem_of_app. left. apply list_elem_of_In. exact H. }
  assert (Hc_sib : ~ In c (ids sib)).
  { intros H. apply Hc_notin, elem_of_app. right. apply list_elem_of_In. exact H. }
  assert (Hcp_c : c <> cp) by (intros ->; apply Hcp; left; reflexivity).
  assert (Hcp_ch : ~ In cp (ids ch)).
  { intros H. apply Hcp. right. apply in_or_app. left. exact H. }
  assert (Hcp_sib : ~ In cp (ids sib)).
  { intros H. apply Hcp. right. apply in_or_app. right. exact H. }
  (* the subtree of [c] *)
  assert (Hsub : exists nA hA,
             (forall m, walk (nA + m) h cp (AtNode c) ret
                        = walk m hA cp (Climbing c)
                            (ret ++ pushed fb ++ found h (ids ch)))
             /\ heapShape h hA
             /\ (forall y, ~ In y (ids ch) -> hA !! y = h !! y)
             /\ parented hA ch c).
  { destruct ch as [|c1 ch1 sib1].
    - cbn in Hlch. exists 1%nat, h. split; [|split; [|split]].
      + intros m. cbn [Nat.add]. rewrite (walk_at_leaf m h cp c fb ret Hx Hlch Hcp_c).
        cbn [ids]. unfold ReactTestUtils.found. cbn [flat_map].
        rewrite app_nil_r. reflexivity.
      + apply heapShape_refl.
      + reflexivity.
      + exact I.
    - pose proof Hlch as Hl1. cbn [layout] in Hl1.
      destruct Hl1 as [Hchild (f1 & Hc1 & _)].
      set (h1 := <[c1 := set_return (Some c) f1]> h).
      assert (Hs1 : heapShape h h1) by (apply heapShape_set_return; exact Hc1).
      destruct (IHch h1 c1 c cp (ret ++ pushed fb)%list) as
          (n2 & h2 & last2 & Hrun2 & Hs2 & Hfr2 & (fl & Hl2 & Hsl & Hrl) & Hpar2).
      { eapply layout_shape; [exact Hs1|]. rewrite <- Hchild. exact Hlch. }
      { exact Hnd_ch. }
      { exact Hcp_ch. }
      { exists (set_return (Some c) f1). split; [apply lookup_insert_eq|reflexivity]. }
      exists (S (n2 + 1)), h2. split; [|split; [|split]].
      + intros m. cbn [Nat.add].
        rewrite (walk_at_child (n2 + 1 + m) h cp c fb c1 f1 ret Hx Hchild Hc1).
        fold h1. rewrite <- Nat.add_assoc, Hrun2. cbn [Nat.add].
        rewrite (walk_climb_up m h2 cp last2 fl c _ Hl2 Hsl Hrl Hcp_c).
        rewrite <- (found_shape h h1 _ Hs1), <- app_assoc. reflexivity.
      + eapply heapShape_trans; eauto.
      + intros y Hy. rewrite Hfr2 by exact Hy. unfold h1.
        apply lookup_insert_ne. intros ->. apply Hy. left. reflexivity.
      + exact Hpar2. }
  destruct Hsub as (nA & hA & HrunA & HsA & HfrA & HparA).
  assert (HxA : hA !! c = Some fb) by (rewrite HfrA by exact Hc_ch; exact Hx).
  assert (Hfound : forall l, found h (c :: ids ch ++ l)
                             = (pushed fb ++ found h (ids ch) ++ found h l)%list).
  { intros l. rewrite (found_cons h c fb _ Hx), found_app. reflexivity. }
  destruct sib as [|s sib1 sib2].
  - cbn in Hlsib. exists nA, hA, c. split; [|split; [|split; [|split]]].
    + intros m. rewrite HrunA. cbn [ids]. rewrite Hfound.
      unfold ReactTestUtils.found at 3. cbn [flat_map]. rewrite app_nil_r. reflexivity.
    + exact HsA.
    + intros y Hy. apply HfrA. intros H. apply Hy. right. apply in_or_app. left. exact H.
    + exists fb. auto.
    + cbn [parented]. split; [exists fb; auto|]. split; [exact HparA|exact I].
  - pose proof Hlsib as Hl1. cbn [layout] in Hl1.
    destruct Hl1 as [Hsibling (fs & Hs & _)].
    assert (Hs_ch : ~ In s (ids ch)).
    { intros H. apply (Hdisj s); apply list_elem_of_In; [exact H|]. left. reflexivity. }
    assert (HsA' : hA !! s = Some fs) by (rewrite HfrA by exact Hs_ch; exact Hs).
    set (h3 := <[s := set_return (return_ fb) fs]> hA).
    assert (Hs3 : heapShape hA h3) by (apply heapShape_set_return; exact HsA').
    assert (Hs_c : s <> c).
    { intros ->. apply Hc_sib. left. reflexivity. }
    destruct (IHsib h3 s p cp (ret ++ pushed fb ++ found h (ids ch))%list) as
        (n4 & h4 & last4 & Hrun4 & Hs4 & Hfr4 & Hlast4 & Hpar4).
    { eapply layout_shape; [exact Hs3|]. eapply layout_shape; [exact HsA|].
      rewrite <- Hsibling. exact Hlsib. }
    { exact Hnd_sib. }
    { exact Hcp_sib. }
    { exists (set_return (return_ fb) fs). split; [apply lookup_insert_eq|exact Hrp]. }
    assert (Hfr : forall y, ~ In y (ids (Cons s sib1 sib2)) -> h4 !! y = hA !! y).
    { intros y Hy. rewrite Hfr4 by exact Hy. unfold h3.
      apply lookup_insert_ne. intros ->. apply Hy. left. reflexivity. }
    exists (nA + S n4)%nat, h4, last4. split; [|split; [|split; [|split]]].
    + intros m. rewrite <- Nat.add_assoc, HrunA. cbn [Nat.add].
      rewrite (walk_climb_sibling (n4 + m) hA cp c fb s fs _ HxA Hsibling HsA').
      fold h3. rewrite Hrun4.
      rewrite <- (found_shape h h3 _ (heapShape_trans _ _ _ HsA Hs3)).
      rewrite Hfound, <- !app_assoc. reflexivity.
    + eapply heapShape_trans; [exact HsA|]. eapply heapShape_trans; eauto.
    + intros y Hy. rewrite Hfr.
      * apply HfrA. intros H. apply Hy. right. apply in_or_app. left. exact H.
      * intros H. apply Hy. right. apply in_or_app. right. exact H.
    + exact Hlast4.
    + cbn [parented]. split; [|split; [|exact Hpar4]].
      * exists fb. rewrite Hfr by exact Hc_sib. auto.
      * eapply parented_agree; [|exact HparA]. intros y Hy. apply Hfr.
        intros H. apply (Hdisj y); apply list_elem_of_In; assumption.
Qed.

End Walk.

End TestUtilsFacts.

Module TestUtilsTheorems.

Import ReactTestUtils TestUtilsFacts.

Section Search.

Variables ClassComponent FunctionalComponent HostComponent HostText : Z.
Variable findCurrentFiberUsingSlowPath : Heap -> FiberId -> option FiberId.

Local Abbreviation walk :=
  (walk ClassComponent FunctionalComponent HostComponent HostText).
Local Abbreviation found :=
  (found ClassComponent FunctionalComponent HostComponent HostText).
Local Abbreviation findAllInRenderedFiberTreeInternal :=
  (findAllInRenderedFiberTreeInternal ClassComponent FunctionalComponent HostComponent
     HostText).

(** X14: when the current fiber of the given fiber is the root of a tree laid
    out in the heap by [child] and [sibling] pointers (no fiber occurring
    twice), the search returns, given enough fuel and then for any larger
    amount, the public instances of the inspected fibers that pass [test],
    the root first and its descendants in document order.  Siblings of the
    root and whatever lies outside the tree are neither visited nor changed;
    inside, only [return] pointers are written, and afterwards every
    descendant points back to its parent, whatever the pointers were before. *)
Theorem search_collects_subtree_in_document_order :
  forall (test : option PublicInst -> bool) (h : Heap) (fiber currentParent : FiberId)
         (root : Fiber) (children : Forest),
    findCurrentFiberUsingSlowPath h fiber = Some currentParent ->
    h !! currentParent = Some root ->
    layout h children (child root) ->
    NoDup (currentParent :: ids children) ->
    exists fuel h',
      (forall more,
         findAllInRenderedFiberTreeInternal test findCurrentFiberUsingSlowPath
           (fuel + more) h (Some fiber)
         = Value (found test h (currentParent :: ids children), h'))
      /\ heapShape h h'
      /\ (forall x, ~ In x (ids children) -> h' !! x = h !! x)
      /\ parented h' children currentParent.
Proof.
  intros test h fiber cp root ch Hcur Hroot Hlay Hnd.
  unfold ReactTestUtils.findAllInRenderedFiberTreeInternal. rewrite Hcur.
  apply NoDup_cons in Hnd as [Hcp Hnd].
  assert (Hcp' : ~ In cp (ids ch)) by (intros H; apply Hcp, list_elem_of_In, H).
  destruct ch as [|c1 ch1 sib1].
  - cbn in Hlay. exists 1%nat, h. split; [|split; [|split]].
    + intros more. cbn [Nat.add].
      rewrite (walk_at_childless_root _ _ _ _ test more h cp root [] Hroot Hlay).
      rewrite (found_cons _ _ _ _ test h cp root [] Hroot).
      unfold ReactTestUtils.found. cbn [flat_map app ids]. rewrite app_nil_r.
      reflexivity.
    + apply heapShape_refl.
    + reflexivity.
    + exact I.
  - pose proof Hlay as Hl1. cbn [layout] in Hl1.
    destruct Hl1 as [Hchild (f1 & Hc1 & _)].
    set (h1 := <[c1 := set_return (Some cp) f1]> h).
    assert (Hs1 : heapShape h h1) by (apply heapShape_set_return; exact Hc1).
    destruct (walk_forest ClassComponent FunctionalComponent HostComponent HostText test
                (Cons c1 ch1 sib1) h1 c1 cp cp
                ([] ++ pushed ClassComponent FunctionalComponent HostComponent HostText
                         test root)%list) as
        (n2 & h2 & last & Hrun & Hs2 & Hfr & (fl & Hl & Hsl & Hrl) & Hpar).
    { eapply layout_shape; [exact Hs1|]. rewrite <- Hchild. exact Hlay. }
    { exact Hnd. }
    { exact Hcp'. }
    { exists (set_return (Some cp) f1). split; [apply lookup_insert_eq|reflexivity]. }
    exists (S (n2 + 1)), h2. split; [|split; [|split]].
    + intros more. cbn [Nat.add].
      rewrite (walk_at_child _ _ _ _ test (n2 + 1 + more) h cp cp root c1 f1 []
                 Hroot Hchild Hc1).
      fold h1. rewrite <- Nat.add_assoc, Hrun. cbn [Nat.add].
      rewrite (walk_climb_done _ _ _ _ test more h2 cp last fl _ Hl Hsl Hrl).
      rewrite (found_cons _ _ _ _ test h cp root _ Hroot).
      rewrite <- (found_shape _ _ _ _ test h h1 _ Hs1). cbn [app]. reflexivity.
    + eapply heapShape_trans; eauto.
    + intros y Hy. rewrite Hfr by exact Hy. unfold h1.
      apply lookup_insert_ne. intros ->. apply Hy. left. reflexivity.
    + exact Hpar.
Qed.

End Search.

Lemma search_collects_subtree_in_document_order_witness :
  exists fuel h',
    (forall more,
       findAllInRenderedFiberTreeInternal 2 1 5 6 (fun _ => true)
         (fun _ fiber => Some fiber) (fuel + more) Sample.rendered (Some 1%nat)
       = Value (found 2 1 5 6 (fun _ => true) Sample.rendered
                  (1%nat :: ids Sample.renderedChildren), h'))
    /\ heapShape Sample.rendered h'
    /\ (forall x, ~ In x (ids Sample.renderedChildren) -> h' !! x = Sample.rendered !! x)
    /\ parented h' Sample.renderedChildren 1%nat.
Proof.
  apply (search_collects_subtree_in_document_order 2 1 5 6 (fun _ fiber => Some fiber)
           (fun _ => true) Sample.rendered 1%nat 1%nat
           (Sample.fiber 2 Sample.component (Some 2%nat) (Some 9%nat))
           Sample.renderedChildren).
  - reflexivity.
  - vm_compute. reflexivity.
  - unfold Sample.renderedChildren. cbn [layout].
    repeat first [ split; [reflexivity|]
                 | eexists; split; [vm_compute; reflexivity|]; cbn [child sibling]
                 | reflexivity
                 | split ].
  - apply (bool_decide_unpack _). vm_compute. exact I.
Defined.

Section Queries.

Variables ClassComponent FunctionalComponent HostComponent HostText : Z.
Variable findCurrentFiberUsingSlowPath : Heap -> FiberId -> option FiberId.

Local Abbreviation found :=
  (found ClassComponent FunctionalComponent HostComponent HostText).
Local Abbreviation findRenderedDOMComponentWithTag :=
  (findRenderedDOMComponentWithTag ClassComponent FunctionalComponent HostComponent
     HostText findCurrentFiberUsingSlowPath).
Local Abbreviation scryRenderedDOMComponentsWithTag :=
  (scryRenderedDOMComponentsWithTag ClassComponent FunctionalComponent HostComponent
     HostText findCurrentFiberUsingSlowPath).


Lemma pushed_ext test1 test2 f :
  (forall x, test1 x = test2 x) ->
  pushed ClassComponent FunctionalComponent HostComponent HostText test1 f
  = pushed ClassComponent FunctionalComponent HostComponent HostText test2 f.
Proof. intros H. unfold pushed. rewrite H. reflexivity. Qed.

Lemma walk_ext test1 test2 :
  (forall x, test1 x = test2 x) ->
  forall fuel h cp pos ret,
    walk ClassComponent FunctionalComponent HostComponent HostText test1 fuel h cp pos ret
    = walk ClassComponent FunctionalComponent HostComponent HostText test2 fuel h cp pos
        ret.
Proof.
  intros Hext. induction fuel as [|fuel IH]; intros h cp pos ret; [reflexivity|].
  cbn [walk]. destruct pos as [node|node]; destruct (h !! node) as [f|]; try reflexivity.
  - rewrite (pushed_ext test1 test2 f Hext).
    destruct (child f) as [c|].
    + destruct (h !! c); [apply IH|reflexivity].
    + destruct (node =? cp)%nat; [reflexivity|apply IH].
  - destruct (sibling f) as [s|].
    + destruct (h !! s); [apply IH|reflexivity].
    + destruct (return_ f) as [r|]; [|reflexivity].
      destruct (r =? cp)%nat; [reflexivity|apply IH].
Qed.

Lemma toUpperCase_idempotent c : toUpperCase (toUpperCase c) = toUpperCase c.
Proof. destruct c as [[] [] [] [] [] [] [] []]; reflexivity. Qed.

Lemma toUpperCaseString_idempotent s :
  toUpperCaseString (toUpperCaseString s) = toUpperCaseString s.
Proof.
  induction s as [|c s IH]; cbn; [reflexivity|].
  rewrite toUpperCase_idempotent, IH. reflexivity.
Qed.

(** X16: the tag query does not distinguish letter case: two tag names with
    the same upper-case form give the same outcome on every heap and root,
    for every amount of fuel; in particular a name and its upper-case form. *)
Theorem tag_query_ignores_case :
  (forall (fuel : nat) (h : Heap) (root : option PublicInst) (tagName1 tagName2 : string),
     toUpperCaseString tagName1 = toUpperCaseString tagName2 ->
     scryRenderedDOMComponentsWithTag fuel h root tagName1
     = scryRenderedDOMComponentsWithTag fuel h root tagName2)
  /\ (forall (fuel : nat) (h : Heap) (root : option PublicInst) (tagName : string),
        scryRenderedDOMComponentsWithTag fuel h root (toUpperCaseString tagName)
        = scryRenderedDOMComponentsWithTag fuel h root tagName).
Proof.
  assert (Hmain : forall fuel h root t1 t2,
             toUpperCaseString t1 = toUpperCaseString t2 ->
             scryRenderedDOMComponentsWithTag fuel h root t1
             = scryRenderedDOMComponentsWithTag fuel h root t2).
  { intros fuel h root t1 t2 Hup.
    unfold ReactTestUtils.scryRenderedDOMComponentsWithTag,
      ReactTestUtils.findAllInRenderedTree.
    destruct root as [i|]; [|reflexivity].
    destruct (isCompositeComponent (Some i)); [|reflexivity].
    unfold findAllInRenderedFiberTreeInternal.
    destruct (inst_reactInternalFiber i) as [fiber|]; [|reflexivity].
    destruct (findCurrentFiberUsingSlowPath h fiber) as [cp|]; [|reflexivity].
    apply walk_ext. intros x. unfold hasTag. rewrite Hup. reflexivity. }
  split; [exact Hmain|].
  intros fuel h root tagName. apply Hmain. apply toUpperCaseString_idempotent.
Qed.

End Queries.

Lemma tag_query_ignores_case_witness :
  scryRenderedDOMComponentsWithTag 2 1 5 6 (fun _ fiber => Some fiber) 20
    Sample.rendered Sample.component "div"
  = scryRenderedDOMComponentsWithTag 2 1 5 6 (fun _ fiber => Some fiber) 20
      Sample.rendered Sample.component "DIV".
Proof.
  apply (proj1 (tag_query_ignores_case 2 1 5 6 (fun _ fiber => Some fiber))).
  reflexivity.
Defined.


Lemma substring_whole s : substring 0 (String.length s) s = s.
Proof. induction s as [|c s IH]; cbn; [reflexivity|]. rewrite IH. reflexivity. Qed.

Lemma toLowerCaseChar_toUpperCase c :
  ~ (65 <= nat_of_ascii c <= 90)%nat -> toLowerCaseChar (toUpperCase c) = c.
Proof.
  destruct c as [[] [] [] [] [] [] [] []]; intros H; try reflexivity;
    exfalso; apply H; vm_compute; split; lia.
Qed.

Lemma convenience_names_checked :
  forallb (fun name => String.eqb (convenienceName (topOf name)) name)
    (SimpleEventPlugin.interactiveEventTypeNames
       ++ SimpleEventPlugin.nonInteractiveEventTypeNames) = true.
Proof. vm_compute. reflexivity. Qed.





End TestUtilsTheorems.
